(** * PragaTrends: collector, store, viewer and dashboard aggregation

    A shallow embedding of the four Python modules of the repository
    ([coletor_trends], [visualizador], [gerar_todos_graficos], [dashboard])
    and the properties of their behaviour.

    Conventions.
    - A pandas [Timestamp] at midnight is the number of days since
      1970-01-01 (a [Z]).
    - An integer column is a list of [Z]; a float column produced by
      [mean] is a list of [Q] (exact rationals, NaN is [None]).
    - The files the programs touch form a [gmap string arquivo]: SQLite
      databases (with or without the table [trends]), directories, images.
    - Console output and sleeps are recorded as a list of events.
    - A function that can let an exception escape returns a [resultado]. *)

From Stdlib Require Import ZArith QArith Qminmax Lia Ascii String List Bool.
From Stdlib Require Import Sorting.Sorted Permutation OrdersEx.
From stdpp Require Import base option list sorting gmap strings.

Local Open Scope Z_scope.

(* ===================================================================== *)
(** * Definitions                                                         *)
(* ===================================================================== *)

(** ** Calendar: the part of pandas' date arithmetic the programs use *)

Module Calendar.

(** Day number of a civil date (proleptic Gregorian calendar, eras of 400
    years starting on 1 March). *)
Definition days_from_civil (y m d : Z) : Z :=
  let y' := if m <=? 2 then y - 1 else y in
  let er := y' / 400 in
  let yo := y' mod 400 in
  let mp := if 2 <? m then m - 3 else m + 9 in
  let dy := (153 * mp + 2) / 5 + d - 1 in
  er * 146097 + (yo * 365 + yo / 4 - yo / 100 + dy) - 719468.

(** [Period.to_timestamp()] of a monthly period: its first day.  Months are
    numbered [12 * year + (month - 1)]. *)
Definition to_timestamp (periodo : Z) : Z :=
  days_from_civil (periodo / 12) (periodo mod 12 + 1) 1.

(** [Timestamp.to_period('M')]: the month whose first day is the latest one
    not after the day.  The mean month length gives an estimate that is off
    by at most one month. *)
Definition to_period_M (dia : Z) : Z :=
  let k := ((dia + 719468) * 4800) / 146097 + 2 in
  if to_timestamp (k + 1) <=? dia then k + 1
  else if to_timestamp k <=? dia then k
  else k - 1.

(** Civil date (year, month, day) of a day number. *)
Definition civil_from_days (dia : Z) : Z * Z * Z :=
  let k := to_period_M dia in
  (k / 12, k mod 12 + 1, dia - to_timestamp k + 1).

(** [Timestamp.weekday()], Monday is 0; 1970-01-01 was a Thursday. *)
Definition weekday (dia : Z) : Z := (dia + 3) mod 7.

(** Right edge (and label) of the ['W'] (= ['W-SUN']) bin of a day: the
    Sunday on or after it. *)
Definition week_end (dia : Z) : Z := dia + (6 - weekday dia).

(** Decimal digits, zero padded to [n] places. *)
Definition digit (k : Z) : ascii := ascii_of_nat (48 + Z.to_nat (k mod 10)).

Fixpoint pad_digits (n : nat) (k : Z) (acc : string) : string :=
  match n with
  | O => acc
  | S n' => pad_digits n' (k / 10) (String (digit k) acc)
  end.

(** [strftime('%Y-%m-%d')]. *)
Definition strftime_ymd (dia : Z) : string :=
  let '(y, m, d) := civil_from_days dia in
  (pad_digits 4 y "" ++ "-" ++ pad_digits 2 m "" ++ "-" ++ pad_digits 2 d "")%string.

(** Reading decimal digits back. *)
Definition digit_value (c : ascii) : option Z :=
  let n := Z.of_nat (nat_of_ascii c) in
  if (48 <=? n) && (n <=? 57) then Some (n - 48) else None.

Fixpoint read_digits (n : nat) (s : string) (acc : Z) : option (Z * string) :=
  match n with
  | O => Some (acc, s)
  | S n' =>
      match s with
      | String c s' =>
          match digit_value c with
          | Some v => read_digits n' s' (10 * acc + v)
          | None => None
          end
      | EmptyString => None
      end
  end.

Definition days_in_month (y m : Z) : Z :=
  to_timestamp (12 * y + (m - 1) + 1) - to_timestamp (12 * y + (m - 1)).

(** [pd.to_datetime] on the ISO form [YYYY-MM-DD] written by the collector.
    Other spellings that pandas would also accept are outside this model:
    they are rejected here. *)
Definition to_datetime (s : string) : option Z :=
  match read_digits 4 s 0 with
  | Some (y, String "-" s1) =>
      match read_digits 2 s1 0 with
      | Some (m, String "-" s2) =>
          match read_digits 2 s2 0 with
          | Some (d, EmptyString) =>
              if (1 <=? m) && (m <=? 12) && (1 <=? d) && (d <=? days_in_month y m)
              then Some (days_from_civil y m d) else None
          | _ => None
          end
      | _ => None
      end
  | _ => None
  end.

(** Start offset of a month inside its era, and the table check used to
    establish the calendar facts. *)
Definition month_offset (r : Z) : Z :=
  (r / 12) * 365 + (r / 12) / 4 - (r / 12) / 100 + (153 * (r mod 12) + 2) / 5.

Fixpoint all_from (n : nat) (z : Z) (p : Z -> bool) : bool :=
  match n with
  | O => true
  | S n' => p z && all_from n' (z + 1) p
  end.

Definition check_month (r : Z) : bool :=
  let f := month_offset r in
  (0 <=? f) && (f + 28 <=? (if r =? 4799 then 146097 else month_offset (r + 1)))
  && ((if r =? 4799 then 146097 else month_offset (r + 1)) <=? f + 31)
  && (4800 * f <=? 146097 * r + 146097) && (146097 * r <=? 4800 * f + 146097).

End Calendar.


(** ** Strings: the comparisons SQLite and Python make *)

Module Texto.

(** SQLite's default [BINARY] collation on TEXT: byte-wise comparison. *)
Definition leb (a b : string) : bool :=
  match String_as_OT.compare a b with
  | Gt => false
  | _ => true
  end.

Definition le (a b : string) : Prop := leb a b = true.

(** Python's [needle in hay] on strings. *)
Fixpoint contem (needle hay : string) : bool :=
  if String.prefix needle hay then true
  else match hay with
       | EmptyString => false
       | String _ hay' => contem needle hay'
       end.

(** [s.replace(' ', '_')]. *)
Fixpoint replace_space (s : string) : string :=
  match s with
  | EmptyString => EmptyString
  | String c s' =>
      String (if Ascii.eqb c " "%char then "_"%char else c) (replace_space s')
  end.

(** [os.path.dirname]: the part before the last slash ("" when there is
    none). *)
Fixpoint dirname (p : string) : string :=
  match p with
  | EmptyString => EmptyString
  | String c p' =>
      if contem "/" p' then String c (dirname p')
      else EmptyString
  end.

End Texto.

(** ** pandas frames as the collector receives them *)

Module Pandas.

(** The provider's wide table: a date index and one integer column per
    term (the boolean column [isPartial] holds 0/1).  Every column is as
    long as the index. *)
Record DataFrame := {
  index : list Z;
  columns : list (string * list Z)
}.

(** [df.empty]: some axis has length 0. *)
Definition empty (df : DataFrame) : bool :=
  match index df, columns df with
  | [], _ => true
  | _, [] => true
  | _, _ => false
  end.

(** [name in df.columns]. *)
Definition has_column (name : string) (df : DataFrame) : bool :=
  existsb (fun c => String.eqb (fst c) name) (columns df).

(** [df.drop(columns=[name])]. *)
Definition drop (name : string) (df : DataFrame) : DataFrame :=
  {| index := index df;
     columns := List.filter (fun c => negb (String.eqb (fst c) name)) (columns df) |}.

(** [df.reset_index().melt(id_vars='date', ...)]: one row per column and
    date, column after column. *)
Definition melt (df : DataFrame) : list (Z * string * Z) :=
  flat_map (fun c => fmap (fun dv => (fst dv, fst c, snd dv))
                              (List.combine (index df) (snd c)))
           (columns df).

End Pandas.

(** ** Files, console and exceptions *)

Module Mundo.

(** A row of the table [trends]. *)
Record linha := {
  data : string;
  termo_busca : string;
  interesse : Z;
  geolocalizacao : string;
  categoria : string
}.

(** PRIMARY KEY (data, termo_busca, geolocalizacao, categoria). *)
Definition chave (r : linha) : string * string * string * string :=
  (data r, termo_busca r, geolocalizacao r, categoria r).

(** A saved chart: its title and one line per term, each a list of
    (day, interest) points. *)
Record figura := {
  titulo : string;
  series : list (string * list (Z * Z))
}.

Inductive arquivo :=
| Banco (trends : option (list linha))
| Diretorio
| Imagem (fig : figura).

Inductive excecao :=
| ValueError (texto : string)
| SqliteError (texto : string)
| OSError (texto : string)
| ProviderError (texto : string).

Definition str (e : excecao) : string :=
  match e with
  | ValueError t | SqliteError t | OSError t | ProviderError t => t
  end.

Inductive mensagem :=
| BancoPronto (db_file : string)
| ErroIniciarBanco (e : string)
| Erro429 (delay : Z)
| ErroBusca (e : string)
| ErroInesperado (e : string)
| RegistrosSalvos (n : nat) (cat : string)
| ErroSalvar (cat e : string)
| Iniciando
| Configurando
| Processando (cat : string)
| Buscando (keywords : list string)
| Salvando
| NenhumDado (cat : string)
| Aguardando
| Concluido
| ErroFatal (e : string)
| ErroListar (e : string)
| ErroBuscarCategoria (cat e : string)
| DataFrameVazio
| GraficoSalvo (nome_arquivo : string)
| ErroGrafico (e : string)
| NenhumDadoCategoria (cat : string)
| Exibindo (cat : string)
| Tabela (linhas : list (string * string * Z))
| Texto (t : string).

Inductive evento :=
| Print (m : mensagem)
| Sleep (segundos : Z).

Record mundo := {
  fs : gmap string arquivo;
  saida : list evento;
  chamadas : nat
}.

Inductive resultado (A : Type) :=
| Retorna (a : A)
| Levanta (e : excecao).
Arguments Retorna {A} a.
Arguments Levanta {A} e.

(** Computations over the world that may raise. *)
Definition M (A : Type) : Type := mundo -> resultado A * mundo.

Definition ret {A} (a : A) : M A := fun w => (Retorna a, w).
Definition raise {A} (e : excecao) : M A := fun w => (Levanta e, w).
Definition bind {A B} (c : M A) (k : A -> M B) : M B :=
  fun w => match c w with
           | (Retorna a, w') => k a w'
           | (Levanta e, w') => (Levanta e, w')
           end.

Definition com_fs (f : gmap string arquivo) (w : mundo) : mundo :=
  {| fs := f; saida := saida w; chamadas := chamadas w |}.

Definition print (m : mensagem) : M unit :=
  fun w => (Retorna tt,
            {| fs := fs w; saida := saida w ++ [Print m]; chamadas := chamadas w |}).

(** [time.sleep]: a negative length is a [ValueError]. *)
Definition sleep (segundos : Z) : M unit :=
  fun w => if segundos <? 0
           then (Levanta (ValueError "sleep length must be non-negative"), w)
           else (Retorna tt,
                 {| fs := fs w; saida := saida w ++ [Sleep segundos];
                    chamadas := chamadas w |}).

(** The sleeps and the printed messages of an output, in order. *)
Definition sleeps (out : list evento) : list Z :=
  omap (fun ev => match ev with Sleep d => Some d | Print _ => None end) out.

Definition prints (out : list evento) : list mensagem :=
  omap (fun ev => match ev with Print m => Some m | Sleep _ => None end) out.

(** [sqlite3.connect(db_file)] followed by a statement on [trends]: a
    missing file is created as an empty database; a directory cannot be
    opened; a file that is no database, or a database without the table,
    makes the statement fail.  The answer is the file system after
    connecting and either the table or the error. *)
Definition conectar (db_file : string) (f : gmap string arquivo)
  : gmap string arquivo * (list linha + excecao) :=
  match f !! db_file with
  | None => (<[db_file := Banco None]> f, inr (SqliteError "no such table: trends"))
  | Some (Banco None) => (f, inr (SqliteError "no such table: trends"))
  | Some (Banco (Some t)) => (f, inl t)
  | Some Diretorio => (f, inr (SqliteError "unable to open database file"))
  | Some (Imagem _) => (f, inr (SqliteError "file is not a database"))
  end.

(** The table a file holds, if it is a database with the table. *)
Definition tabela_de (f : gmap string arquivo) (db_file : string) : option (list linha) :=
  match f !! db_file with
  | Some (Banco (Some t)) => Some t
  | _ => None
  end.

(** INSERT OR REPLACE of one row: a row with the same key is deleted, the
    new row gets a fresh rowid (it goes last). *)
Definition insert_or_replace (r : linha) (t : list linha) : list linha :=
  filter (fun x => chave x <> chave r) t ++ [r].

(** A whole batch of INSERT OR REPLACE statements, in order. *)
Definition upsert (dados : list linha) (t : list linha) : list linha :=
  foldl (fun acc r => insert_or_replace r acc) t dados.

(** The PRIMARY KEY constraint: no two rows with the same key. *)
Definition unica (t : list linha) : Prop := NoDup (fmap chave t).

End Mundo.

(** ** coletor_trends.py *)

Module Coletor.
Import Mundo.

Definition CATEGORIAS_PRAGAS : list (string * list string) :=
  [ ("Lesmas", ["lesma"; "lesmas"; "caracol"; "caracois"]);
    ("Ratos", ["rato"; "ratos"; "ratazana"; "ratazanas"]);
    ("Baratas", ["barata"; "baratas"; "barata de esgoto"; "baratas de esgoto"]);
    ("Formigas", ["formiga"; "formigas"; "formiga cortadeira"; "formigas cortadeiras"]);
    ("Escorpiões", ["escorpião"; "escorpiões"; "escorpião amarelo"; "escorpião marrom"]);
    ("Aranhas", ["aranha"; "aranhas"; "aranha marrom"; "armadeira"]) ]%string.

Definition GEOLOCATION : string := "BR".
Definition TIMEFRAME : string := "2020-01-01 2025-06-27".
Definition DB_FILE : string := "tendencias_pragas_v4.db".

(** What one request to the provider gives: a table, or an exception with
    its text ([str(e)]). *)
Inductive resposta :=
| Dados (df : Pandas.DataFrame)
| Excecao (texto : string).

(** The provider as the collector sees it: the answer to the n-th request
    of the run, for the given terms, region and time frame. *)
Definition provedor : Type := nat -> list string -> string -> string -> resposta.

(** [TrendReq(...)], [build_payload], [interest_over_time()]: one request. *)
Definition consulta (prov : provedor) (termos : list string) (geo timeframe : string)
  : M resposta :=
  fun w => (Retorna (prov (chamadas w) termos geo timeframe),
            {| fs := fs w; saida := saida w; chamadas := S (chamadas w) |}).

(** [iniciar_banco]: CREATE TABLE IF NOT EXISTS; only [sqlite3.Error] is
    caught, and nothing else is raised here. *)
Definition iniciar_banco (db_file : string) : M unit :=
  fun w =>
    match fs w !! db_file with
    | None =>
        print (BancoPronto db_file) (com_fs (<[db_file := Banco (Some [])]> (fs w)) w)
    | Some (Banco None) =>
        print (BancoPronto db_file) (com_fs (<[db_file := Banco (Some [])]> (fs w)) w)
    | Some (Banco (Some _)) => print (BancoPronto db_file) w
    | Some Diretorio => print (ErroIniciarBanco "unable to open database file") w
    | Some (Imagem _) => print (ErroIniciarBanco "file is not a database") w
    end.

(** The body of [for attempt in range(retries)], with [n] iterations left. *)
Fixpoint tentativas (n : nat) (attempt : Z) (prov : provedor)
    (termos : list string) (geo timeframe : string) (retries initial_delay : Z)
  : M (option Pandas.DataFrame) :=
  match n with
  | O => ret None
  | S n' =>
      bind (consulta prov termos geo timeframe) (fun r =>
      match r with
      | Dados df =>
          if Pandas.empty df then ret None
          else if Pandas.has_column "isPartial" df
               then ret (Some (Pandas.drop "isPartial" df))
               else ret (Some df)
      | Excecao e =>
          if Texto.contem "429" e then
            if attempt <? retries - 1 then
              let delay := initial_delay * 2 ^ attempt in
              bind (print (Erro429 delay)) (fun _ =>
              bind (sleep delay) (fun _ =>
              tentativas n' (attempt + 1) prov termos geo timeframe
                         retries initial_delay))
            else bind (print (ErroBusca e)) (fun _ => ret None)
          else bind (print (ErroInesperado e)) (fun _ => ret None)
      end)
  end.

Definition buscar_dados_trends (prov : provedor) (termos : list string)
    (geo timeframe : string) (retries initial_delay : Z)
  : M (option Pandas.DataFrame) :=
  tentativas (Z.to_nat retries) 0 prov termos geo timeframe retries initial_delay.

(** [dados_para_salvar]: the melted frame with region, category and the
    date as text. *)
Definition dados_para_salvar (df : Pandas.DataFrame) (cat geolocation : string)
  : list linha :=
  fmap (fun r => match r with
                     | (d, termo, v) =>
                         {| data := Calendar.strftime_ymd d; termo_busca := termo;
                            interesse := v; geolocalizacao := geolocation;
                            categoria := cat |}
                     end)
           (Pandas.melt df).

(** [cursor.executemany]: the rows go one by one into the open
    transaction.  [defeito = Some k] is a storage-engine failure on the
    statement number [k]; the answer is then [inl] of the transaction as
    it stands. *)
Fixpoint executemany (defeito : option nat) (i : nat) (dados : list linha)
    (pendente : list linha) : list linha + list linha :=
  match dados with
  | [] => inr pendente
  | r :: resto =>
      if decide (defeito = Some i) then inl pendente
      else executemany defeito (S i) resto (insert_or_replace r pendente)
  end.

(** [salvar_dados_no_banco].  The transaction is written to the file by
    [conn.commit()] only; on any exception the connection is dropped with
    the transaction still open, so nothing of it reaches the file.
    [defeito = Some k] with [k] the number of rows is a failure of the
    commit itself. *)
Definition salvar_dados_no_banco (df : Pandas.DataFrame) (cat geolocation db_file : string)
    (defeito : option nat) : M unit :=
  fun w =>
    let dados := dados_para_salvar df cat geolocation in
    match conectar db_file (fs w) with
    | (f1, inr e) => print (ErroSalvar cat (str e)) (com_fs f1 w)
    | (f1, inl t) =>
        match executemany defeito 0 dados t with
        | inl _ => print (ErroSalvar cat "disk I/O error") (com_fs f1 w)
        | inr pendente =>
            if decide (defeito = Some (length dados))
            then print (ErroSalvar cat "disk I/O error") (com_fs f1 w)
            else print (RegistrosSalvos (length dados) cat)
                       (com_fs (<[db_file := Banco (Some pendente)]> f1) w)
        end
    end.

(** The loop of [main] over the configured categories.  [defeitos] gives
    the storage failure, if any, met while saving a category. *)
Fixpoint processa (prov : provedor) (defeitos : string -> option nat)
    (cats : list (string * list string)) : M unit :=
  match cats with
  | [] => ret tt
  | (cat, keywords) :: resto =>
      bind (print (Processando cat)) (fun _ =>
      bind (print (Buscando keywords)) (fun _ =>
      bind (buscar_dados_trends prov keywords GEOLOCATION TIMEFRAME 3 10) (fun trends_df =>
      bind (match trends_df with
            | Some df =>
                if negb (Pandas.empty df)
                then bind (print Salvando) (fun _ =>
                     salvar_dados_no_banco df cat GEOLOCATION DB_FILE (defeitos cat))
                else print (NenhumDado cat)
            | None => print (NenhumDado cat)
            end) (fun _ =>
      bind (print Aguardando) (fun _ =>
      bind (sleep 5) (fun _ =>
      processa prov defeitos resto))))))
  end.

(** [main]: a fatal error is printed and raised again. *)
Definition main (prov : provedor) (defeitos : string -> option nat) : M unit :=
  bind (print Iniciando) (fun _ =>
  bind (print Configurando) (fun _ =>
  bind (iniciar_banco DB_FILE) (fun _ =>
  fun w =>
    match bind (processa prov defeitos CATEGORIAS_PRAGAS) (fun _ =>
               print Concluido) w with
    | (Retorna u, w') => (Retorna u, w')
    | (Levanta e, w') => bind (print (ErroFatal (str e))) (fun _ => raise e) w'
    end))).

End Coletor.

(** ** visualizador.py *)

Module Visualizador.
Import Mundo.

Definition DB_FILE : string := "tendencias_pragas.db".

(** A frame with the columns [data], [termo_busca], [interesse]. *)
Definition frame : Type := list (string * string * Z).

#[global] Instance le_dec (a b : string) : Decision (Texto.le a b).
Proof. unfold Texto.le. apply _. Defined.

(** ORDER BY data on rows. *)
Definition por_data (r1 r2 : linha) : Prop := Texto.le (data r1) (data r2).

#[global] Instance por_data_dec (r1 r2 : linha) : Decision (por_data r1 r2).
Proof. unfold por_data. apply _. Defined.

(** SELECT DISTINCT categoria FROM trends ORDER BY categoria. *)
Definition select_distinct_categoria (t : list linha) : list string :=
  merge_sort Texto.le (remove_dups (fmap categoria t)).

(** SELECT data, termo_busca, interesse FROM trends WHERE categoria = ?
    ORDER BY data. *)
Definition select_categoria (cat : string) (t : list linha) : frame :=
  fmap (fun r => (data r, termo_busca r, interesse r))
           (merge_sort por_data (filter (fun r => categoria r = cat) t)).

Definition listar_categorias (db_file : string) : M (list string) :=
  fun w =>
    match conectar db_file (fs w) with
    | (f1, inl t) => (Retorna (select_distinct_categoria t), com_fs f1 w)
    | (f1, inr e) =>
        bind (print (ErroListar (str e))) (fun _ => ret []) (com_fs f1 w)
    end.

Definition buscar_dados_categoria (cat db_file : string) : M frame :=
  fun w =>
    match conectar db_file (fs w) with
    | (f1, inl t) => (Retorna (select_categoria cat t), com_fs f1 w)
    | (f1, inr e) =>
        bind (print (ErroBuscarCategoria cat (str e))) (fun _ => ret []) (com_fs f1 w)
    end.

(** [Series.unique()]: first occurrences, in order of appearance. *)
Fixpoint unique (l : list string) : list string :=
  match l with
  | [] => []
  | x :: l' => x :: filter (fun y => y <> x) (unique l')
  end.

(** [pd.to_datetime] on the column [data]; [None] when a text is no date. *)
Fixpoint datas_de (df : frame) : option (list (Z * string * Z)) :=
  match df with
  | [] => Some []
  | (d, termo, v) :: df' =>
      match Calendar.to_datetime d, datas_de df' with
      | Some dia, Some resto => Some ((dia, termo, v) :: resto)
      | _, _ => None
      end
  end.

Definition nome_do_grafico (cat : string) : string :=
  ("graficos/grafico_" ++ Texto.replace_space cat ++ ".png")%string.

(** The lines of the chart: one per term, with the points of that term. *)
Definition linhas_do_grafico (df : list (Z * string * Z)) : list (string * list (Z * Z)) :=
  fmap (fun termo =>
              (termo,
               fmap (fun r => (fst (fst r), snd r))
                        (filter (fun r => snd (fst r) = termo) df)))
           (unique (fmap (fun r => snd (fst r)) df)).

(** [plt.savefig]: the directory of the file must exist and the name must
    not be a directory. *)
Definition savefig (nome_arquivo : string) (fig : figura)
    (f : gmap string arquivo) : gmap string arquivo + excecao :=
  match f !! Texto.dirname nome_arquivo with
  | Some Diretorio =>
      match f !! nome_arquivo with
      | Some Diretorio => inr (OSError "Is a directory")
      | _ => inl (<[nome_arquivo := Imagem fig]> f)
      end
  | _ => inr (OSError "No such file or directory")
  end.

Definition gerar_grafico_categoria (df : frame) (cat : string) : M unit :=
  match df with
  | [] => print DataFrameVazio
  | _ =>
      fun w =>
        let f1 := match fs w !! "graficos"%string with
                  | None => <["graficos"%string := Diretorio]> (fs w)
                  | Some _ => fs w
                  end in
        match datas_de df with
        | None => print (ErroGrafico "Unknown datetime string format") (com_fs f1 w)
        | Some df' =>
            let fig := {| titulo := cat; series := linhas_do_grafico df' |} in
            let nome_arquivo := nome_do_grafico cat in
            match savefig nome_arquivo fig f1 with
            | inl f2 => print (GraficoSalvo nome_arquivo) (com_fs f2 w)
            | inr e => print (ErroGrafico (str e)) (com_fs f1 w)
            end
        end
  end.

Definition visualizar_dados_por_categoria (cat db_file : string) : M unit :=
  bind (buscar_dados_categoria cat db_file) (fun df =>
  match df with
  | [] => print (NenhumDadoCategoria cat)
  | _ => bind (print (Exibindo cat)) (fun _ =>
         bind (print (Tabela df)) (fun _ =>
         gerar_grafico_categoria df cat))
  end).

(** [next((cat for cat in categorias if cat.lower() == escolha.lower()), None)]
    followed by the truth test [if categoria_valida]: an empty name counts
    as not found.  [lower] is Python's [str.lower]. *)
Definition categoria_valida (lower : string -> string) (categorias : list string)
    (escolha : string) : option string :=
  match List.find (fun c => String.eqb (lower c) (lower escolha)) categorias with
  | Some EmptyString => None
  | r => r
  end.

(** The interactive loop: one line of input per round; the end of the
    input is [EOFError]. *)
Fixpoint interativo (lower : string -> string) (categorias : list string)
    (entrada : list string) : M unit :=
  bind (print (Texto "Categorias disponíveis:")) (fun _ =>
  match entrada with
  | [] => print (Texto "Entrada não interativa detectada. Encerrando.")
  | escolha :: resto =>
      if String.eqb (lower escolha) "sair" then ret tt
      else
        bind (match categoria_valida lower categorias escolha with
              | Some c => visualizar_dados_por_categoria c DB_FILE
              | None => print (Texto "Erro: Categoria não encontrada.")
              end) (fun _ =>
        interativo lower categorias resto)
  end).

(** The script body: [argv] are the command-line arguments after the
    script name, [entrada] the lines typed at the prompt. *)
Definition principal (lower : string -> string) (argv entrada : list string) : M unit :=
  bind (print (Texto "--- Visualizador de Tendências de Pragas ---")) (fun _ =>
  bind (listar_categorias DB_FILE) (fun categorias_disponiveis =>
  bind (match argv with
        | categoria_escolhida :: _ =>
            match categoria_valida lower categorias_disponiveis categoria_escolhida with
            | Some c => visualizar_dados_por_categoria c DB_FILE
            | None => print (Texto "Erro: Categoria não encontrada.")
            end
        | [] =>
            match categorias_disponiveis with
            | [] => print (Texto "Nenhuma categoria encontrada no banco de dados.")
            | _ => interativo lower categorias_disponiveis entrada
            end
        end) (fun _ =>
  print (Texto "Visualizador encerrado.")))).

End Visualizador.

(** ** gerar_todos_graficos.py *)

Module Gerador.
Import Mundo.

Fixpoint gera (cats : list string) : M unit :=
  match cats with
  | [] => ret tt
  | cat :: resto =>
      bind (print (Processando cat)) (fun _ =>
      bind (Visualizador.buscar_dados_categoria cat Visualizador.DB_FILE) (fun dados_df =>
      bind (match dados_df with
            | [] => print (NenhumDadoCategoria cat)
            | _ => Visualizador.gerar_grafico_categoria dados_df cat
            end) (fun _ =>
      gera resto)))
  end.

Definition main : M unit :=
  bind (print (Texto "--- Iniciando geração de todos os gráficos de tendências ---")) (fun _ =>
  bind (Visualizador.listar_categorias Visualizador.DB_FILE) (fun categorias =>
  match categorias with
  | [] => print (Texto "Nenhuma categoria encontrada. Execute o 'coletor_trends.py' primeiro.")
  | _ => bind (print (Texto "Gerando gráficos...")) (fun _ =>
         bind (gera categorias) (fun _ =>
         print (Texto "--- Processo concluído. Todos os gráficos foram gerados. ---")))
  end)).

(** The chart files present in a file system. *)
Definition graficos_em (f : gmap string arquivo) : list string :=
  omap (fun kv => match snd kv with Imagem _ => Some (fst kv) | _ => None end)
       (map_to_list f).

End Gerador.

(** ** dashboard.py *)

Module Dashboard.
Import Mundo.

(** A frame with the columns [data] (as timestamps), [termo_busca],
    [interesse]. *)
Definition dados : Type := list (Z * string * Z).

(** [carregar_dados]: the rows of a category from the collector's file,
    with the dates parsed.  A text that is no date makes [pd.to_datetime]
    raise; nothing catches it here. *)
Definition carregar_dados (cat : string) : M dados :=
  bind (Visualizador.buscar_dados_categoria cat Coletor.DB_FILE) (fun df =>
  match df with
  | [] => ret []
  | _ => match Visualizador.datas_de df with
         | Some df' => ret df'
         | None => raise (ValueError "Unknown datetime string format")
         end
  end).

(** The rows inside the selected period. *)
Definition df_filtrado (start_date end_date : Z) (df_dados : dados) : dados :=
  filter (fun r => start_date <= fst (fst r) /\ fst (fst r) <= end_date) df_dados.

Definition soma (l : list Z) : Z := foldr Z.add 0 l.

(** [groupby('data')['interesse'].sum().reset_index()]: one row per date,
    dates ascending. *)
Definition df_agregado (df : dados) : list (Z * Z) :=
  fmap (fun d => (d, soma (fmap snd (filter (fun r => fst (fst r) = d) df))))
           (merge_sort Z.le (remove_dups (fmap (fun r => fst (fst r)) df))).

(** [mean] of a bin: NaN for an empty bin. *)
Definition mean (vs : list Z) : option Q :=
  match vs with
  | [] => None
  | _ => Some (inject_Z (soma vs) / inject_Z (Z.of_nat (length vs)))%Q
  end.

Definition minimo (x : Z) (l : list Z) : Z := foldr Z.min x l.
Definition maximo (x : Z) (l : list Z) : Z := foldr Z.max x l.

(** [set_index('data').resample('MS').mean().reset_index()]: one bin per
    calendar month from the month of the first date to the month of the
    last, labelled by the first day of the month. *)
Definition resample_MS (s : list (Z * Z)) : list (Z * option Q) :=
  match s with
  | [] => []
  | p :: s' =>
      let lo := Calendar.to_period_M (minimo (fst p) (fmap fst s')) in
      let hi := Calendar.to_period_M (maximo (fst p) (fmap fst s')) in
      fmap (fun k =>
                  (Calendar.to_timestamp k,
                   mean (fmap snd
                     (filter (fun q => Calendar.to_timestamp k <= fst q
                                       /\ fst q < Calendar.to_timestamp (k + 1)) s))))
               (seqZ lo (hi - lo + 1))
  end.

(** [set_index('data').resample('W').mean().reset_index()]: weekly bins
    closed and labelled on the right by Sundays, from the week of the first
    date to the week of the last. *)
Definition resample_W (s : list (Z * Z)) : list (Z * option Q) :=
  match s with
  | [] => []
  | p :: s' =>
      let lo := Calendar.week_end (minimo (fst p) (fmap fst s')) in
      let hi := Calendar.week_end (maximo (fst p) (fmap fst s')) in
      fmap (fun i =>
                  let fim := lo + 7 * i in
                  (fim,
                   mean (fmap snd
                     (filter (fun q => fim - 7 < fst q /\ fst q <= fim) s))))
               (seqZ 0 ((hi - lo) / 7 + 1))
  end.

(** [dropna]. *)
Definition dropna (s : list (Z * option Q)) : list (Z * Q) :=
  omap (fun p => match snd p with Some v => Some (fst p, v) | None => None end) s.

Definition por_data (p q : Z * Q) : Prop := fst p <= fst q.

#[global] Instance por_data_dec (p q : Z * Q) : Decision (por_data p q).
Proof. unfold por_data. apply _. Defined.

(** [last_date.to_period('M').to_timestamp()]. *)
Definition start_of_last_month (agg : list (Z * Z)) : Z :=
  match agg with
  | [] => 0
  | p :: agg' =>
      Calendar.to_timestamp (Calendar.to_period_M (maximo (fst p) (fmap fst agg')))
  end.

Definition df_historico (agg : list (Z * Z)) : list (Z * Z) :=
  filter (fun q => fst q < start_of_last_month agg) agg.

Definition df_recente (agg : list (Z * Z)) : list (Z * Z) :=
  filter (fun q => start_of_last_month agg <= fst q) agg.

(** The mixed granularity: monthly means before the start of the last
    month, weekly means from it on; concatenated, NaN rows dropped, sorted
    by date. *)
Definition granularidade_mista (agg : list (Z * Z)) : list (Z * Q) :=
  let df_mensal := resample_MS (df_historico agg) in
  let df_semanal := resample_W (df_recente agg) in
  merge_sort por_data (dropna (df_mensal ++ df_semanal)).

(** The same series said directly: one point per calendar month that has
    data (the mean of the values dated in that month, labelled by the first
    day of the month), and one point per week that has data (the mean of
    the values dated in the week ending on that Sunday). *)
Definition media (vs : list Z) : Q :=
  (inject_Z (soma vs) / inject_Z (Z.of_nat (length vs)))%Q.

Definition meses_com_dados (s : list (Z * Z)) : list Z :=
  merge_sort Z.le (remove_dups ((fun q => Calendar.to_period_M (fst q)) <$> s)).

Definition semanas_com_dados (s : list (Z * Z)) : list Z :=
  merge_sort Z.le (remove_dups ((fun q => Calendar.week_end (fst q)) <$> s)).

Definition pontos_mensais (s : list (Z * Z)) : list (Z * Q) :=
  (fun k => (Calendar.to_timestamp k,
             media (snd <$> filter (fun q => Calendar.to_period_M (fst q) = k) s)))
  <$> meses_com_dados s.

Definition pontos_semanais (s : list (Z * Z)) : list (Z * Q) :=
  (fun fim => (fim,
               media (snd <$> filter (fun q => Calendar.week_end (fst q) = fim) s)))
  <$> semanas_com_dados s.

Definition max_interesse (x : Q) (l : list Q) : Q := foldr Qmax x l.

(** The re-normalisation to the scale 0-100. *)
Definition renormaliza (df_final : list (Z * Q)) : list (Z * Q) :=
  match df_final with
  | [] => df_final
  | p :: resto =>
      let mx := max_interesse (snd p) (fmap snd resto) in
      if Qlt_le_dec 0 mx
      then fmap (fun q => (fst q, (snd q / mx * 100)%Q)) df_final
      else df_final
  end.

(** [df_final] as the chart receives it. *)
Definition df_final (agg : list (Z * Z)) : list (Z * Q) :=
  match agg with
  | [] => []
  | _ => renormaliza (granularidade_mista agg)
  end.

(** From the loaded rows and the selected period to the charted series. *)
Definition consolidado (start_date end_date : Z) (df_dados : dados) : list (Z * Q) :=
  df_final (df_agregado (df_filtrado start_date end_date df_dados)).

(** What the script shows. *)
Inductive pagina :=
| Recarregar
| SemCategorias
| SemDados (cat : string)
| PeriodoIncompleto (cat : string)
| Grafico (cat : string) (serie : list (Z * Q)) (detalhe : dados).

(** [garantir_dados_locais]: when the collector's file does not exist the
    collection runs and the script asks to be run again ([st.rerun()]):
    the answer is [true]. *)
Definition garantir_dados_locais (prov : Coletor.provedor)
    (defeitos : string -> option nat) : M bool :=
  fun w =>
    match fs w !! Coletor.DB_FILE with
    | None =>
        bind (print (Texto "Primeira execução ou banco de dados não encontrado.")) (fun _ =>
        bind (print (Texto "Iniciando a coleta de dados do Google Trends.")) (fun _ =>
        bind (Coletor.main prov defeitos) (fun _ =>
        bind (print (Texto "Coleta de dados concluída!")) (fun _ =>
        ret true)))) w
    | Some _ => ret false w
    end.

(** The script from top to bottom.  [escolha] is the position picked in
    the category selector (the selector always returns one of its
    options), [periodo] what the date selector returns. *)
Definition script (prov : Coletor.provedor) (defeitos : string -> option nat)
    (escolha : nat) (periodo : list Z) : M pagina :=
  bind (garantir_dados_locais prov defeitos) (fun rerun =>
  if (rerun : bool) then ret Recarregar else
  bind (Visualizador.listar_categorias Coletor.DB_FILE) (fun categorias_disponiveis =>
  match categorias_disponiveis with
  | [] => ret SemCategorias
  | c0 :: _ =>
      let categoria_selecionada := nth escolha categorias_disponiveis c0 in
      bind (carregar_dados categoria_selecionada) (fun df_dados =>
      match df_dados with
      | [] => ret (SemDados categoria_selecionada)
      | _ =>
          match periodo with
          | [start_date; end_date] =>
              ret (Grafico categoria_selecionada
                           (consolidado start_date end_date df_dados)
                           (df_filtrado start_date end_date df_dados))
          | _ => ret (PeriodoIncompleto categoria_selecionada)
          end
      end)
  end)).

End Dashboard.

(** ** Reading the console after a run *)

Definition executa {A} (c : Mundo.M A) (w : Mundo.mundo) : Mundo.mundo := snd (c w).
Definition valor {A} (c : Mundo.M A) (w : Mundo.mundo) : Mundo.resultado A := fst (c w).

Definition mundo_vazio : Mundo.mundo :=
  {| Mundo.fs := ∅; Mundo.saida := []; Mundo.chamadas := 0 |}.

(** A provider that answers every request with two weeks of data, one
    column per term and the [isPartial] column. *)
Definition provedor_exemplo : Coletor.provedor :=
  fun _ termos _ _ =>
    Coletor.Dados {| Pandas.index := [20240; 20247];
                     Pandas.columns := ((fun t => (t, [10; 20])) <$> termos)
                                       ++ [("isPartial"%string, [0; 1])] |}.

(** Two weeks of data for two terms, and the same frame with other
    interest values. *)
Definition df_exemplo : Pandas.DataFrame :=
  {| Pandas.index := [20240; 20247];
     Pandas.columns := [("rato"%string, [10; 20]); ("ratos"%string, [30; 40])] |}.

Definition df_exemplo_novo : Pandas.DataFrame :=
  {| Pandas.index := [20240; 20247];
     Pandas.columns := [("rato"%string, [11; 22]); ("ratos"%string, [33; 44])] |}.

(** A directory whose database holds the given table. *)
Definition mundo_com (db_file : string) (t : list Mundo.linha) : Mundo.mundo :=
  {| Mundo.fs := {[ db_file := Mundo.Banco (Some t) ]};
     Mundo.saida := []; Mundo.chamadas := 0 |}.


(** A provider that always answers "too many requests". *)
Definition provedor_429 : Coletor.provedor :=
  fun _ _ _ _ => Coletor.Excecao "The request failed: Google returned a response with code 429".

(** The frame a request returns on success: the provider's table without
    the column [isPartial]. *)
Definition sem_isPartial (df : Pandas.DataFrame) : Pandas.DataFrame :=
  if Pandas.has_column "isPartial" df then Pandas.drop "isPartial" df else df.

(** A computation leaves every file but [arq] as it was. *)
Definition so_toca {A} (arq : string) (c : Mundo.M A) : Prop :=
  forall w outro, outro <> arq ->
    Mundo.fs (snd (c w)) !! outro = Mundo.fs w !! outro.

(** A computation keeps a property of the files. *)
Definition mantem {A} (P : gmap string Mundo.arquivo -> Prop) (c : Mundo.M A) : Prop :=
  forall w, P (Mundo.fs w) -> P (Mundo.fs (snd (c w))).

(** The collector's database has the table [trends], with unique keys. *)
Definition banco_integro (f : gmap string Mundo.arquivo) : Prop :=
  exists t, Mundo.tabela_de f Coletor.DB_FILE = Some t /\ Mundo.unica t.

(** A computation leaves all files as they were. *)
Definition nao_toca {A} (c : Mundo.M A) : Prop :=
  forall w, Mundo.fs (snd (c w)) = Mundo.fs w.

(* ===================================================================== *)
(** * Properties                                                          *)
(* ===================================================================== *)

(** ** Calendar facts *)

Section CalendarFacts.
Import Calendar.

Lemma all_from_spec n : forall z p, all_from n z p = true ->
  forall i, z <= i < z + Z.of_nat n -> p i = true.
Proof.
  induction n as [|n IH]; intros z p H i Hi; [lia|].
  cbn [all_from] in H. apply andb_prop in H as [H1 H2].
  destruct (Z.eq_dec i z) as [->|Hne]; [exact H1|].
  apply (IH (z + 1) p H2). lia.
Qed.

Lemma check_month_all : all_from 4800 0 check_month = true.
Proof. vm_compute. reflexivity. Qed.

(** What the table check says about one month of an era. *)
Lemma month_offset_facts r :
  0 <= r < 4800 ->
  0 <= month_offset r
  /\ month_offset r + 28 <= (if r =? 4799 then 146097 else month_offset (r + 1))
  /\ (if r =? 4799 then 146097 else month_offset (r + 1)) <= month_offset r + 31
  /\ 4800 * month_offset r <= 146097 * r + 146097
  /\ 146097 * r <= 4800 * month_offset r + 146097.
Proof.
  intros Hr.
  pose proof (all_from_spec 4800 0 check_month check_month_all r) as H.
  specialize (H ltac:(lia)). unfold check_month in H.
  repeat (apply andb_prop in H as [H ?]).
  repeat match goal with
         | h : (_ <=? _) = true |- _ => apply Z.leb_le in h
         end.
  repeat split; assumption.
Qed.

Lemma month_offset_lt_era r : 0 <= r < 4800 -> 0 <= month_offset r < 146097.
Proof.
  intros Hr. destruct (month_offset_facts r Hr) as (H0 & H1 & _).
  split; [exact H0|].
  destruct (Z.eqb_spec r 4799); [lia|].
  assert (Hs : 0 <= r + 1 < 4800) by lia.
  revert H1. generalize (month_offset r). intros f Hf.
  assert (forall n : nat, forall a, 0 <= a -> a + Z.of_nat n = 4799 ->
            month_offset a < 146097) as Hind.
  { clear. induction n as [|n IH]; intros a Ha Hn.
    - destruct (month_offset_facts a ltac:(lia)) as (_ & H1 & _).
      replace (a =? 4799) with true in H1 by (symmetry; apply Z.eqb_eq; lia). lia.
    - destruct (month_offset_facts a ltac:(lia)) as (_ & H1 & _).
      replace (a =? 4799) with false in H1 by (symmetry; apply Z.eqb_neq; lia).
      specialize (IH (a + 1) ltac:(lia) ltac:(lia)). lia. }
  specialize (Hind (Z.to_nat (4799 - (r + 1))) (r + 1) ltac:(lia) ltac:(lia)). lia.
Qed.

Lemma month_offset_step r :
  0 <= r -> r + 1 < 4800 ->
  month_offset r + 28 <= month_offset (r + 1) <= month_offset r + 31.
Proof.
  intros H0 H1. destruct (month_offset_facts r ltac:(lia)) as (_ & Ha & Hb & _).
  replace (r =? 4799) with false in * by (symmetry; apply Z.eqb_neq; lia). lia.
Qed.

Lemma month_offset_mono a b :
  0 <= a -> a < b -> b < 4800 -> month_offset a < month_offset b.
Proof.
  intros Ha Hab Hb.
  assert (forall n : nat, forall c, a < c -> c = a + 1 + Z.of_nat n -> c < 4800 ->
            month_offset a < month_offset c) as Hind.
  { induction n as [|n IH]; intros c Hac Hc Hlt.
    - replace c with (a + 1) by lia. pose proof (month_offset_step a). lia.
    - specialize (IH (c - 1) ltac:(lia) ltac:(lia) ltac:(lia)).
      pose proof (month_offset_step (c - 1) ltac:(lia) ltac:(lia)).
      replace (c - 1 + 1) with c in * by lia. lia. }
  apply (Hind (Z.to_nat (b - a - 1))); lia.
Qed.

(** The first day of a month, by era and month of the era. *)
Lemma to_timestamp_era k :
  to_timestamp k
  = 146097 * ((k - 2) / 4800) + month_offset ((k - 2) mod 4800) - 719468.
Proof.
  unfold to_timestamp, days_from_civil, month_offset.
  destruct (Z.leb_spec (k mod 12 + 1) 2); destruct (Z.ltb_spec 2 (k mod 12 + 1));
    try lia; Z.div_mod_to_equations; lia.
Qed.

(** First days of months are strictly increasing. *)
Lemma to_timestamp_lt k1 k2 : k1 < k2 -> to_timestamp k1 < to_timestamp k2.
Proof.
  intros H. rewrite !to_timestamp_era.
  pose proof (Z.div_mod (k1 - 2) 4800 ltac:(lia)) as E1.
  pose proof (Z.div_mod (k2 - 2) 4800 ltac:(lia)) as E2.
  pose proof (Z.mod_pos_bound (k1 - 2) 4800 ltac:(lia)) as B1.
  pose proof (Z.mod_pos_bound (k2 - 2) 4800 ltac:(lia)) as B2.
  pose proof (month_offset_lt_era _ B1) as F1.
  pose proof (month_offset_lt_era _ B2) as F2.
  destruct (Z.lt_trichotomy ((k1 - 2) / 4800) ((k2 - 2) / 4800)) as [Hq|[Hq|Hq]];
    [lia| |lia].
  assert (Hr : (k1 - 2) mod 4800 < (k2 - 2) mod 4800) by lia.
  pose proof (month_offset_mono _ _ (proj1 B1) Hr (proj2 B2)). lia.
Qed.

Lemma to_timestamp_le k1 k2 : k1 <= k2 -> to_timestamp k1 <= to_timestamp k2.
Proof.
  intros H. destruct (Z.eq_dec k1 k2) as [->|]; [lia|].
  pose proof (to_timestamp_lt k1 k2). lia.
Qed.

(** A month lasts 28 to 31 days. *)
Lemma to_timestamp_succ k :
  to_timestamp k + 28 <= to_timestamp (k + 1) <= to_timestamp k + 31.
Proof.
  rewrite !to_timestamp_era.
  pose proof (Z.div_mod (k - 2) 4800 ltac:(lia)) as E1.
  pose proof (Z.mod_pos_bound (k - 2) 4800 ltac:(lia)) as B1.
  destruct (month_offset_facts _ B1) as (_ & Ha & Hb & _).
  destruct (Z.eqb_spec ((k - 2) mod 4800) 4799) as [He|He].
  - assert (Hq : (k + 1 - 2) / 4800 = (k - 2) / 4800 + 1)
      by (Z.div_mod_to_equations; lia).
    assert (Hm : (k + 1 - 2) mod 4800 = 0) by (Z.div_mod_to_equations; lia).
    rewrite Hq, Hm. change (month_offset 0) with 0. lia.
  - assert (Hq : (k + 1 - 2) / 4800 = (k - 2) / 4800)
      by (Z.div_mod_to_equations; lia).
    assert (Hm : (k + 1 - 2) mod 4800 = (k - 2) mod 4800 + 1)
      by (Z.div_mod_to_equations; lia).
    rewrite Hq, Hm. lia.
Qed.

(** The estimate of [to_period_M] is within one month. *)
Lemma to_timestamp_estimate j :
  4800 * (to_timestamp (j + 2) + 719468) <= 146097 * j + 146097
  /\ 146097 * j <= 4800 * (to_timestamp (j + 2) + 719468) + 146097.
Proof.
  rewrite to_timestamp_era. replace (j + 2 - 2) with j by lia.
  pose proof (Z.div_mod j 4800 ltac:(lia)) as E1.
  pose proof (Z.mod_pos_bound j 4800 ltac:(lia)) as B1.
  destruct (month_offset_facts _ B1) as (_ & _ & _ & Ha & Hb). lia.
Qed.

(** [to_period_M] gives the month that contains the day. *)
Lemma to_period_M_spec d :
  to_timestamp (to_period_M d) <= d < to_timestamp (to_period_M d + 1).
Proof.
  unfold to_period_M.
  set (j := (d + 719468) * 4800 / 146097).
  assert (Hj : 146097 * j <= (d + 719468) * 4800 < 146097 * (j + 1)).
  { unfold j. Z.div_mod_to_equations. lia. }
  pose proof (to_timestamp_estimate (j - 1)) as [Hlo _].
  pose proof (to_timestamp_estimate (j + 2)) as [_ Hhi].
  replace (j - 1 + 2) with (j + 2 - 1) in Hlo by lia.
  replace (j + 2 + 2) with (j + 2 + 1 + 1) in Hhi by lia.
  destruct (Z.leb_spec (to_timestamp (j + 2 + 1)) d).
  - split; lia.
  - destruct (Z.leb_spec (to_timestamp (j + 2)) d).
    + split; lia.
    + replace (j + 2 - 1 + 1) with (j + 2) by lia. split; lia.
Qed.

(** The month of a day is the last month that starts on or before it. *)
Lemma to_timestamp_le_iff k d : to_timestamp k <= d <-> k <= to_period_M d.
Proof.
  pose proof (to_period_M_spec d) as [Hlo Hhi]. split; intros H.
  - destruct (Z.le_gt_cases k (to_period_M d)) as [|Hgt]; [assumption|].
    pose proof (to_timestamp_le (to_period_M d + 1) k ltac:(lia)). lia.
  - pose proof (to_timestamp_le k (to_period_M d) H). lia.
Qed.

Lemma to_period_M_mono d1 d2 : d1 <= d2 -> to_period_M d1 <= to_period_M d2.
Proof.
  intros H. apply to_timestamp_le_iff.
  pose proof (to_period_M_spec d1). lia.
Qed.

Lemma to_period_M_unique k d :
  to_timestamp k <= d < to_timestamp (k + 1) -> to_period_M d = k.
Proof.
  intros [Hlo Hhi]. apply to_timestamp_le_iff in Hlo.
  destruct (Z.eq_dec (to_period_M d) k) as [|Hne]; [assumption|].
  assert (Hk : k + 1 <= to_period_M d) by lia.
  apply to_timestamp_le_iff in Hk. lia.
Qed.

Lemma to_period_M_to_timestamp k : to_period_M (to_timestamp k) = k.
Proof.
  apply to_period_M_unique. pose proof (to_timestamp_lt k (k + 1)). lia.
Qed.

(** A day is before the first day of month [k] exactly when its month is
    before [k]. *)
Lemma lt_to_timestamp_iff k d : d < to_timestamp k <-> to_period_M d < k.
Proof. pose proof (to_timestamp_le_iff k d). lia. Qed.

(** Weeks: the label is the Sunday on or after the day. *)
Lemma week_end_spec d :
  d <= week_end d < d + 7 /\ weekday (week_end d) = 6.
Proof. unfold week_end, weekday. Z.div_mod_to_equations. lia. Qed.

Lemma week_end_mono d1 d2 : d1 <= d2 -> week_end d1 <= week_end d2.
Proof. unfold week_end, weekday. Z.div_mod_to_equations. lia. Qed.

Lemma week_end_step d1 d2 : exists i, week_end d2 = week_end d1 + 7 * i.
Proof.
  exists ((week_end d2 - week_end d1) / 7).
  unfold week_end, weekday. Z.div_mod_to_equations. lia.
Qed.

Lemma week_end_bin d fim :
  weekday fim = 6 -> (fim - 7 < d /\ d <= fim <-> week_end d = fim).
Proof. unfold week_end, weekday. Z.div_mod_to_equations. lia. Qed.

End CalendarFacts.

(** ** Text order *)

Section TextoFacts.

Lemma texto_le_cases a b :
  Texto.le a b <-> a = b \/ String_as_OT.lt a b.
Proof.
  unfold Texto.le, Texto.leb.
  destruct (String_as_OT.compare_spec a b) as [E|L|G]; split; intros H;
    try discriminate; auto.
  destruct H as [->|H].
  - exfalso. exact (StrictOrder_Irreflexive b G).
  - exfalso. exact (StrictOrder_Irreflexive a (StrictOrder_Transitive _ _ _ H G)).
Qed.

#[global] Instance texto_le_refl : Reflexive Texto.le.
Proof. intros a. apply texto_le_cases. now left. Qed.

#[global] Instance texto_le_trans : Transitive Texto.le.
Proof.
  intros a b c H1 H2. apply texto_le_cases in H1, H2. apply texto_le_cases.
  destruct H1 as [->|H1]; [assumption|]. destruct H2 as [<-|H2]; [now right|].
  right. exact (StrictOrder_Transitive _ _ _ H1 H2).
Qed.

#[global] Instance texto_le_total : Total Texto.le.
Proof.
  intros a b. rewrite !texto_le_cases.
  destruct (String_as_OT.compare_spec a b) as [E|L|G]; auto.
Qed.

#[global] Instance texto_le_antisym : AntiSymm (=) Texto.le.
Proof.
  intros a b H1 H2. apply texto_le_cases in H1, H2.
  destruct H1 as [->|H1]; [reflexivity|]. destruct H2 as [->|H2]; [reflexivity|].
  exfalso. exact (StrictOrder_Irreflexive a (StrictOrder_Transitive _ _ _ H1 H2)).
Qed.

#[global] Instance por_data_trans : Transitive Visualizador.por_data.
Proof. intros a b c. unfold Visualizador.por_data. apply texto_le_trans. Qed.

#[global] Instance por_data_total : Total Visualizador.por_data.
Proof. intros a b. unfold Visualizador.por_data. apply texto_le_total. Qed.

End TextoFacts.

(** ** The store *)

Section StoreFacts.
Import Mundo.

Lemma executemany_sem_defeito dados : forall i t,
  Coletor.executemany None i dados t = inr (upsert dados t).
Proof.
  induction dados as [|r dados IH]; intros i t; [reflexivity|].
  cbn [Coletor.executemany]. destruct (decide (None = Some i)) as [E|_]; [discriminate|].
  apply IH.
Qed.

(** With pairwise distinct keys in the batch, the batch replaces the rows
    with its keys and goes to the end of the table. *)
Lemma upsert_distintas dados : forall t,
  NoDup (fmap chave dados) ->
  upsert dados t
  = filter (fun x => chave x ∉ fmap chave dados) t ++ dados.
Proof.
  induction dados as [|r dados IH]; intros t Hnd.
  - cbn. rewrite app_nil_r. symmetry. induction t as [|x t IHt]; [reflexivity|].
    rewrite filter_cons_True by (intros H; inversion H). now f_equal.
  - rewrite fmap_cons in *. apply NoDup_cons in Hnd as [Hr Hnd].
    unfold upsert. cbn [foldl].
    fold (upsert dados (insert_or_replace r t)). rewrite IH by assumption.
    unfold insert_or_replace. rewrite filter_app.
    rewrite (filter_cons_True _ r []) by exact Hr. rewrite filter_nil.
    rewrite <- app_assoc. cbn [app]. f_equal.
    rewrite list_filter_filter. apply list_filter_iff.
    intros x. rewrite elem_of_cons. split.
    + intros [H1 H2] [H3|H3]; [exact (H2 H3)|exact (H1 H3)].
    + intros H. split; intros H'; apply H; auto.
Qed.

Lemma unica_insert_or_replace r t : unica t -> unica (insert_or_replace r t).
Proof.
  unfold unica, insert_or_replace. intros H.
  rewrite fmap_app. apply NoDup_app. split; [|split].
  - induction t as [|x t IH]; [constructor|].
    cbn in H. apply NoDup_cons in H as [Hx Hnd].
    destruct (decide (chave x <> chave r)).
    + rewrite filter_cons_True by assumption. cbn. apply NoDup_cons. split.
      * intros Hin. apply Hx. apply list_elem_of_fmap in Hin as (y & Ey & Hy).
        apply list_elem_of_filter in Hy as [_ Hy].
        apply list_elem_of_fmap. exists y. auto.
      * apply IH. exact Hnd.
    + rewrite filter_cons_False by assumption. apply IH. exact Hnd.
  - intros k Hk Hk'. apply list_elem_of_fmap in Hk as (y & -> & Hy).
    apply list_elem_of_filter in Hy as [Hne _].
    cbn in Hk'. apply list_elem_of_singleton in Hk'. contradiction.
  - cbn. apply NoDup_singleton.
Qed.

Lemma unica_upsert dados : forall t, unica t -> unica (upsert dados t).
Proof.
  induction dados as [|r dados IH]; intros t H; [exact H|].
  apply (IH (insert_or_replace r t)). now apply unica_insert_or_replace.
Qed.

Lemma conectar_tabela db_file f t :
  tabela_de f db_file = Some t -> conectar db_file f = (f, inl t).
Proof.
  unfold tabela_de, conectar. destruct (f !! db_file) as [[[t'|]| |]|]; try discriminate.
  now intros [= ->].
Qed.

Lemma conectar_sem_tabela db_file f :
  tabela_de f db_file = None -> exists f1 e, conectar db_file f = (f1, inr e)
    /\ tabela_de f1 db_file = None
    /\ forall outro, outro <> db_file -> f1 !! outro = f !! outro.
Proof.
  unfold tabela_de, conectar. destruct (f !! db_file) as [[[t'|]| |]|] eqn:E;
    try discriminate; intros _; eexists _, _; (split; [reflexivity|]).
  all: unfold tabela_de; try rewrite E; try rewrite lookup_insert_eq.
  all: split; [reflexivity|]; intros outro Hne; try reflexivity.
  now rewrite lookup_insert_ne.
Qed.

End StoreFacts.

(** ** Claims about the store *)

Section StoreClaims.
Import Mundo.

Lemma select_categoria_length c t :
  length (Visualizador.select_categoria c t)
  = length (filter (fun r => categoria r = c) t).
Proof.
  unfold Visualizador.select_categoria. rewrite length_fmap.
  apply Permutation_length, merge_sort_Permutation.
Qed.

Lemma filter_categoria_chave c (l : list linha) :
  length (filter (fun r => categoria r = c) l)
  = length (filter (fun k : string * string * string * string => snd k = c) (chave <$> l)).
Proof.
  induction l as [|x l IH]; [reflexivity|].
  rewrite fmap_cons. destruct (decide (categoria x = c)) as [E|E].
  - rewrite !filter_cons_True by exact E. cbn. now rewrite IH.
  - rewrite !filter_cons_False by exact E. exact IH.
Qed.

Lemma salvar_sucesso w db_file df cat geo t :
  tabela_de (fs w) db_file = Some t ->
  Coletor.salvar_dados_no_banco df cat geo db_file None w
  = (Retorna tt,
     {| fs := <[db_file := Banco (Some (upsert (Coletor.dados_para_salvar df cat geo) t))]> (fs w);
        saida := saida w ++ [Print (RegistrosSalvos
                    (length (Coletor.dados_para_salvar df cat geo)) cat)];
        chamadas := chamadas w |}).
Proof.
  intros Ht. unfold Coletor.salvar_dados_no_banco.
  rewrite (conectar_tabela _ _ _ Ht), executemany_sem_defeito.
  destruct (decide (None = Some _)); [discriminate|reflexivity].
Qed.

Lemma buscar_com_tabela w db_file c t :
  tabela_de (fs w) db_file = Some t ->
  Visualizador.buscar_dados_categoria c db_file w
  = (Retorna (Visualizador.select_categoria c t), w).
Proof.
  intros Ht. unfold Visualizador.buscar_dados_categoria.
  rewrite (conectar_tabela _ _ _ Ht). destruct w; reflexivity.
Qed.

Lemma tabela_de_insert f db_file t :
  tabela_de (<[db_file := Banco (Some t)]> f) db_file = Some t.
Proof. unfold tabela_de. now rewrite lookup_insert_eq. Qed.

(** C9. For every state of the files, [listar_categorias] returns a list of
    category names without duplicates, in ascending (byte-wise) order. *)
Theorem C9_listar_categorias_ordenada_sem_repeticao db_file w :
  exists l, valor (Visualizador.listar_categorias db_file) w = Retorna l
            /\ NoDup l /\ StronglySorted Texto.le l.
Proof.
  unfold valor, Visualizador.listar_categorias.
  destruct (conectar db_file (fs w)) as [f1 [t|e]]; cbn.
  - eexists; split; [reflexivity|]. unfold Visualizador.select_distinct_categoria. split.
    + rewrite merge_sort_Permutation. apply NoDup_remove_dups.
    + apply StronglySorted_merge_sort; apply _.
  - exists []. repeat split; constructor.
Qed.

(** C5 as stated fails: a row of the category stored earlier under another
    key is returned as well. *)
Lemma C5_counterexample :
  exists l,
    valor (Visualizador.buscar_dados_categoria "Ratos" "t.db")
          (executa (Coletor.salvar_dados_no_banco df_exemplo "Ratos" "BR" "t.db" None)
                   (mundo_com "t.db"
                      [{| data := "2025-05-25"; termo_busca := "rato"; interesse := 5;
                          geolocalizacao := "BR"; categoria := "Ratos" |}]))
    = Retorna l
    /\ length l = 5%nat
    /\ ("2025-05-25", "rato", 5)%string ∈ l
    /\ ("2025-05-25", "rato", 5)%string
       ∉ (fun r => (data r, termo_busca r, interesse r))
           <$> Coletor.dados_para_salvar df_exemplo "Ratos" "BR".
Proof.
  eexists. split; [vm_compute; reflexivity|]. split; [reflexivity|]. split.
  - left.
  - apply (bool_decide_unpack _). vm_compute. reflexivity.
Qed.

(** C5 (amended). Saving the records of a frame (pairwise distinct keys)
    and then reading the category back gives, sorted by date ascending,
    those records as (date, term, interest) together with the rows of the
    category stored before under keys that are not in the batch; on a
    database that holds no row of the category it gives exactly the saved
    records. *)
Theorem C5_salvar_e_buscar w db_file df cat geo t :
  tabela_de (fs w) db_file = Some t ->
  NoDup (chave <$> Coletor.dados_para_salvar df cat geo) ->
  exists l,
    valor (Visualizador.buscar_dados_categoria cat db_file)
          (executa (Coletor.salvar_dados_no_banco df cat geo db_file None) w)
    = Retorna l
    /\ l ≡ₚ (fun r => (data r, termo_busca r, interesse r))
              <$> (filter (fun x => categoria x = cat
                                    /\ chave x ∉ chave <$> Coletor.dados_para_salvar df cat geo) t
                   ++ Coletor.dados_para_salvar df cat geo)
    /\ StronglySorted (fun a b => Texto.le (fst (fst a)) (fst (fst b))) l
    /\ (Forall (fun x => categoria x <> cat) t ->
        l ≡ₚ (fun r => (data r, termo_busca r, interesse r))
               <$> Coletor.dados_para_salvar df cat geo).
Proof.
  intros Ht Hnd. unfold valor, executa.
  rewrite (salvar_sucesso _ _ _ _ _ _ Ht). cbn [snd].
  erewrite buscar_com_tabela by (cbn [fs]; apply tabela_de_insert). cbn [fst].
  eexists; split; [reflexivity|].
  rewrite (upsert_distintas _ _ Hnd).
  set (dados := Coletor.dados_para_salvar df cat geo) in *.
  assert (Hd : Forall (fun r => categoria r = cat) dados).
  { unfold dados, Coletor.dados_para_salvar. apply Forall_fmap, Forall_forall.
    intros [[d termo] v] _. reflexivity. }
  assert (Hf : filter (fun r => categoria r = cat)
                 (filter (fun x => chave x ∉ chave <$> dados) t ++ dados)
               = filter (fun x => categoria x = cat /\ chave x ∉ chave <$> dados) t
                 ++ dados).
  { rewrite filter_app. f_equal.
    - apply list_filter_filter.
    - clear -Hd. induction Hd as [|x l Hx _ IH]; [reflexivity|].
      rewrite filter_cons_True by exact Hx. now f_equal. }
  unfold Visualizador.select_categoria. rewrite Hf.
  split; [now rewrite merge_sort_Permutation|]. split.
  - apply (StronglySorted_fmap _ Visualizador.por_data _).
    + intros a b H. exact H.
    + apply StronglySorted_merge_sort; apply _.
  - intros Hcat. rewrite merge_sort_Permutation.
    replace (filter (fun x => categoria x = cat /\ chave x ∉ chave <$> dados) t)
      with (@nil linha); [reflexivity|].
    symmetry. apply elem_of_nil_inv. intros x Hx.
    apply list_elem_of_filter in Hx as [[Hx1 _] Hx2].
    rewrite Forall_forall in Hcat. exact (Hcat x Hx2 Hx1).
Qed.

Lemma C5_witness :
  exists l,
    valor (Visualizador.buscar_dados_categoria "Ratos" "t.db")
          (executa (Coletor.salvar_dados_no_banco df_exemplo "Ratos" "BR" "t.db" None)
                   (mundo_com "t.db" (Coletor.dados_para_salvar df_exemplo "Lesmas" "BR")))
    = Retorna l
    /\ l ≡ₚ (fun r => (data r, termo_busca r, interesse r))
              <$> (filter (fun x => categoria x = "Ratos"%string
                              /\ chave x ∉ chave <$> Coletor.dados_para_salvar df_exemplo
                                                       "Ratos" "BR")
                          (Coletor.dados_para_salvar df_exemplo "Lesmas" "BR")
                   ++ Coletor.dados_para_salvar df_exemplo "Ratos" "BR")
    /\ StronglySorted (fun a b => Texto.le (fst (fst a)) (fst (fst b))) l
    /\ (Forall (fun x => categoria x <> "Ratos"%string)
               (Coletor.dados_para_salvar df_exemplo "Lesmas" "BR") ->
        l ≡ₚ (fun r => (data r, termo_busca r, interesse r))
               <$> Coletor.dados_para_salvar df_exemplo "Ratos" "BR").
Proof.
  apply (C5_salvar_e_buscar _ _ _ _ _
           (Coletor.dados_para_salvar df_exemplo "Lesmas" "BR")).
  - vm_compute. reflexivity.
  - apply (bool_decide_unpack _). vm_compute. reflexivity.
Defined.

Lemma unica_chave_inj t x y :
  unica t -> x ∈ t -> y ∈ t -> chave x = chave y -> x = y.
Proof.
  unfold unica. induction t as [|z t IH]; intros Hnd Hx Hy E.
  - inversion Hx.
  - rewrite fmap_cons in Hnd. apply NoDup_cons in Hnd as [Hz Hnd].
    apply elem_of_cons in Hx as [->|Hx]; apply elem_of_cons in Hy as [->|Hy].
    + reflexivity.
    + exfalso. apply Hz. rewrite E. now apply list_elem_of_fmap_2.
    + exfalso. apply Hz. rewrite <- E. now apply list_elem_of_fmap_2.
    + now apply IH.
Qed.

Lemma executemany_defeito k dados : forall i t,
  Coletor.executemany (Some k) i dados t
  = if decide (i <= k < i + length dados)%nat
    then inl (upsert (take (k - i) dados) t)
    else inr (upsert dados t).
Proof.
  induction dados as [|r dados IH]; intros i t; cbn [Coletor.executemany length].
  - destruct (decide _); [lia|reflexivity].
  - destruct (decide (Some k = Some i)) as [[= ->]|Hne].
    + rewrite decide_True by lia. now rewrite Nat.sub_diag.
    + assert (k <> i) by congruence. rewrite IH.
      destruct (decide (S i <= k < S i + length dados)%nat).
      * rewrite decide_True by lia.
        replace (k - i)%nat with (S (k - S i)) by lia. reflexivity.
      * rewrite decide_False by lia. reflexivity.
Qed.

(** C6. The key (date, term, region, category) stays unique under saving.
    When the frame is saved again (every key of the batch is already
    stored) the rows are overwritten: the keys stay unique, every category
    reads back with the same number of rows, and each key of the batch
    holds the interest written last. *)
Theorem C6_regravar_sobrescreve w db_file df cat geo t :
  tabela_de (fs w) db_file = Some t ->
  unica t ->
  NoDup (chave <$> Coletor.dados_para_salvar df cat geo) ->
  Forall (fun r => chave r ∈ chave <$> t) (Coletor.dados_para_salvar df cat geo) ->
  exists t',
    tabela_de (fs (executa (Coletor.salvar_dados_no_banco df cat geo db_file None) w))
              db_file = Some t'
    /\ unica t'
    /\ length t' = length t
    /\ (forall c, exists l l',
          valor (Visualizador.buscar_dados_categoria c db_file) w = Retorna l
          /\ valor (Visualizador.buscar_dados_categoria c db_file)
                   (executa (Coletor.salvar_dados_no_banco df cat geo db_file None) w)
             = Retorna l'
          /\ length l' = length l)
    /\ Forall (fun r => r ∈ t'
                        /\ forall x, x ∈ t' -> chave x = chave r ->
                                     interesse x = interesse r)
              (Coletor.dados_para_salvar df cat geo).
Proof.
  intros Ht Hu Hnd Hin. unfold valor, executa.
  rewrite (salvar_sucesso _ _ _ _ _ _ Ht). cbn [snd fs].
  set (dados := Coletor.dados_para_salvar df cat geo) in *.
  exists (upsert dados t).
  assert (Hu' : unica (upsert dados t)) by now apply unica_upsert.
  assert (Hkeys : chave <$> filter (fun x => chave x ∈ chave <$> dados) t
                  ≡ₚ chave <$> dados).
  { apply NoDup_Permutation.
    - unfold unica in Hu. clear -Hu. induction t as [|x t IH]; [constructor|].
      rewrite fmap_cons in Hu. apply NoDup_cons in Hu as [Hx Hu].
      destruct (decide (chave x ∈ chave <$> dados)).
      + rewrite filter_cons_True by assumption. rewrite fmap_cons.
        apply NoDup_cons. split; [|now apply IH].
        intros H. apply Hx. apply list_elem_of_fmap in H as (y & E & Hy).
        apply list_elem_of_filter in Hy as [_ Hy]. rewrite E.
        now apply list_elem_of_fmap_2.
      + rewrite filter_cons_False by assumption. now apply IH.
    - exact Hnd.
    - intros k. split; intros Hk.
      + apply list_elem_of_fmap in Hk as (y & -> & Hy).
        now apply list_elem_of_filter in Hy as [Hy _].
      + rewrite Forall_forall in Hin.
        apply list_elem_of_fmap in Hk as (r & -> & Hr).
        pose proof (Hin r Hr) as Hrt.
        apply list_elem_of_fmap in Hrt as (y & E & Hy).
        rewrite E. apply list_elem_of_fmap_2. apply list_elem_of_filter.
        split; [|exact Hy]. rewrite <- E. now apply list_elem_of_fmap_2. }
  assert (Hsplit : forall P `{!forall x : linha, Decision (P x)},
             length (filter P t)
             = (length (filter P (filter (fun x => chave x ∉ chave <$> dados) t))
                + length (filter P (filter (fun x => chave x ∈ chave <$> dados) t)))%nat).
  { intros P HP. clear. induction t as [|x t IH]; [reflexivity|].
    destruct (decide (chave x ∈ chave <$> dados)) as [Hk|Hk].
    - rewrite (filter_cons_False (fun x => chave x ∉ _)) by tauto.
      rewrite (filter_cons_True (fun x => chave x ∈ _)) by assumption.
      destruct (decide (P x)).
      + rewrite !(filter_cons_True P) by assumption. cbn [length]. lia.
      + rewrite !(filter_cons_False P) by assumption. exact IH.
    - rewrite (filter_cons_True (fun x => chave x ∉ _)) by assumption.
      rewrite (filter_cons_False (fun x => chave x ∈ _)) by assumption.
      destruct (decide (P x)).
      + rewrite !(filter_cons_True P) by assumption. cbn [length]. lia.
      + rewrite !(filter_cons_False P) by assumption. exact IH. }
  split; [apply tabela_de_insert|]. split; [exact Hu'|].
  rewrite (upsert_distintas _ _ Hnd) in *. split; [|split].
  - rewrite length_app.
    pose proof (Hsplit (fun _ => True) _) as Hs.
    assert (Hall : forall l : list linha, filter (fun _ => True) l = l).
    { induction l as [|x l IH]; [reflexivity|].
      rewrite filter_cons_True by exact I. now f_equal. }
    rewrite !Hall in Hs. rewrite Hs. f_equal.
    apply Permutation_length in Hkeys. now rewrite !length_fmap in Hkeys.
  - intros c. rewrite (buscar_com_tabela _ _ _ _ Ht).
    erewrite buscar_com_tabela by (cbn [fs]; apply tabela_de_insert). cbn [fst].
    eexists _, _. split; [reflexivity|]. split; [reflexivity|].
    rewrite !select_categoria_length, filter_app, length_app.
    rewrite (Hsplit (fun r => categoria r = c) _). f_equal.
    rewrite !filter_categoria_chave. now rewrite Hkeys.
  - apply Forall_forall. intros r Hr.
    assert (Hrt : r ∈ filter (fun x => chave x ∉ chave <$> dados) t ++ dados)
      by (apply elem_of_app; now right).
    split; [exact Hrt|]. intros x Hx E.
    now rewrite (unica_chave_inj _ x r Hu' Hx Hrt E).
Qed.

Lemma C6_witness :
  exists t',
    tabela_de (fs (executa (Coletor.salvar_dados_no_banco df_exemplo_novo "Ratos" "BR"
                              "t.db" None)
                     (mundo_com "t.db" (Coletor.dados_para_salvar df_exemplo "Ratos" "BR"))))
              "t.db" = Some t'
    /\ unica t'
    /\ length t' = length (Coletor.dados_para_salvar df_exemplo "Ratos" "BR")
    /\ (forall c, exists l l',
          valor (Visualizador.buscar_dados_categoria c "t.db")
                (mundo_com "t.db" (Coletor.dados_para_salvar df_exemplo "Ratos" "BR"))
          = Retorna l
          /\ valor (Visualizador.buscar_dados_categoria c "t.db")
                   (executa (Coletor.salvar_dados_no_banco df_exemplo_novo "Ratos" "BR"
                               "t.db" None)
                      (mundo_com "t.db" (Coletor.dados_para_salvar df_exemplo "Ratos" "BR")))
             = Retorna l'
          /\ length l' = length l)
    /\ Forall (fun r => r ∈ t'
                        /\ forall x, x ∈ t' -> chave x = chave r ->
                                     interesse x = interesse r)
              (Coletor.dados_para_salvar df_exemplo_novo "Ratos" "BR").
Proof.
  apply (C6_regravar_sobrescreve _ _ _ _ _
           (Coletor.dados_para_salvar df_exemplo "Ratos" "BR")).
  - vm_compute. reflexivity.
  - apply (bool_decide_unpack _). vm_compute. reflexivity.
  - apply (bool_decide_unpack _). vm_compute. reflexivity.
  - apply (bool_decide_unpack _). vm_compute. reflexivity.
Defined.

(** C8. Saving a batch is all or nothing.  [salvar_dados_no_banco] never
    raises and touches no other file.  When the save fails (the file has no
    table [trends], or the storage engine fails on a statement or on the
    commit) the stored table is what it was before and the error is
    printed; otherwise the whole batch is stored. *)
Theorem C8_salvar_atomico w db_file df cat geo defeito :
  exists w',
    Coletor.salvar_dados_no_banco df cat geo db_file defeito w = (Retorna tt, w')
    /\ (forall outro, outro <> db_file -> fs w' !! outro = fs w !! outro)
    /\ ((tabela_de (fs w) db_file = None
         \/ exists k, defeito = Some k
                      /\ (k <= length (Coletor.dados_para_salvar df cat geo))%nat) ->
        tabela_de (fs w') db_file = tabela_de (fs w) db_file
        /\ exists e, saida w' = saida w ++ [Print (ErroSalvar cat e)])
    /\ (forall t, tabela_de (fs w) db_file = Some t ->
        (forall k, defeito = Some k ->
                   (length (Coletor.dados_para_salvar df cat geo) < k)%nat) ->
        tabela_de (fs w') db_file
        = Some (upsert (Coletor.dados_para_salvar df cat geo) t)
        /\ saida w' = saida w ++ [Print (RegistrosSalvos
                         (length (Coletor.dados_para_salvar df cat geo)) cat)]).
Proof.
  unfold Coletor.salvar_dados_no_banco.
  set (dados := Coletor.dados_para_salvar df cat geo).
  destruct (tabela_de (fs w) db_file) as [t|] eqn:Ht.
  - rewrite (conectar_tabela _ _ _ Ht).
    destruct defeito as [k|].
    + rewrite executemany_defeito.
      destruct (decide (0 <= k < 0 + length dados)%nat) as [Hk|Hk].
      * eexists. split; [reflexivity|]. cbn [fs saida com_fs].
        split; [reflexivity|]. split.
        -- intros _. split; [exact Ht|]. now eexists.
        -- intros t' _ Hgt. specialize (Hgt k eq_refl). lia.
      * destruct (decide (Some k = Some (length dados))) as [[= ->]|Hne].
        -- eexists. split; [reflexivity|]. cbn [fs saida com_fs].
           split; [reflexivity|]. split.
           ++ intros _. split; [exact Ht|]. now eexists.
           ++ intros t' _ Hgt. specialize (Hgt _ eq_refl). lia.
        -- assert (k <> length dados) by congruence.
           eexists. split; [reflexivity|]. cbn [fs saida com_fs]. split; [|split].
           ++ intros outro Hne'. now rewrite lookup_insert_ne.
           ++ intros [Hn|(k' & [= <-] & Hle)]; [discriminate|lia].
           ++ intros t' [= <-] _. split; [apply tabela_de_insert|reflexivity].
    + rewrite executemany_sem_defeito.
      destruct (decide (None = Some (length dados))); [discriminate|].
      eexists. split; [reflexivity|]. cbn [fs saida com_fs]. split; [|split].
      * intros outro Hne'. now rewrite lookup_insert_ne.
      * intros [Hn|(k' & Hk & _)]; discriminate.
      * intros t' [= <-] _. split; [apply tabela_de_insert|reflexivity].
  - destruct (conectar_sem_tabela _ _ Ht) as (f1 & e & Hc & Hn & Ho).
    rewrite Hc. eexists. split; [reflexivity|]. cbn [fs saida com_fs].
    split; [exact Ho|]. split.
    + intros _. split; [exact Hn|]. now eexists.
    + intros t' Ht'. discriminate.
Qed.

End StoreClaims.

(** ** The fetcher *)

Section FetcherFacts.
Import Mundo.

Lemma nao_toca_ret {A} (a : A) : nao_toca (ret a).
Proof. intros w. reflexivity. Qed.

Lemma nao_toca_raise {A} e : nao_toca (@raise A e).
Proof. intros w. reflexivity. Qed.

Lemma nao_toca_print m : nao_toca (print m).
Proof. intros w. reflexivity. Qed.

Lemma nao_toca_sleep d : nao_toca (sleep d).
Proof. intros w. unfold sleep. destruct (d <? 0); reflexivity. Qed.

Lemma nao_toca_bind {A B} (c : M A) (k : A -> M B) :
  nao_toca c -> (forall a, nao_toca (k a)) -> nao_toca (bind c k).
Proof.
  intros Hc Hk w. unfold bind. specialize (Hc w).
  destruct (c w) as [[a|e] w1]; cbn in *; [|exact Hc].
  now rewrite Hk.
Qed.

Lemma so_toca_bind {A B} arq (c : M A) (k : A -> M B) :
  so_toca arq c -> (forall a, so_toca arq (k a)) -> so_toca arq (bind c k).
Proof.
  intros Hc Hk w outro Hne. unfold bind. specialize (Hc w outro Hne).
  destruct (c w) as [[a|e] w1]; cbn in *; [|exact Hc].
  now rewrite Hk.
Qed.

Lemma nao_toca_so_toca {A} arq (c : M A) : nao_toca c -> so_toca arq c.
Proof. intros H w outro _. now rewrite H. Qed.

Lemma nao_toca_consulta prov termos geo timeframe :
  nao_toca (Coletor.consulta prov termos geo timeframe).
Proof. intros w. reflexivity. Qed.

Lemma nao_toca_tentativas prov termos geo timeframe retries initial_delay n :
  forall attempt,
    nao_toca (Coletor.tentativas n attempt prov termos geo timeframe retries initial_delay).
Proof.
  induction n as [|n IH]; intros attempt; cbn [Coletor.tentativas].
  - apply nao_toca_ret.
  - apply nao_toca_bind; [apply nao_toca_consulta|]. intros [df|e].
    + destruct (Pandas.empty df); [apply nao_toca_ret|].
      destruct (Pandas.has_column _ df); apply nao_toca_ret.
    + destruct (Texto.contem _ e).
      * destruct (attempt <? retries - 1).
        -- apply nao_toca_bind; [apply nao_toca_print|]. intros _.
           apply nao_toca_bind; [apply nao_toca_sleep|]. intros _. apply IH.
        -- apply nao_toca_bind; [apply nao_toca_print|]. intros _. apply nao_toca_ret.
      * apply nao_toca_bind; [apply nao_toca_print|]. intros _. apply nao_toca_ret.
Qed.

Lemma nao_toca_buscar_dados_trends prov termos geo timeframe retries initial_delay :
  nao_toca (Coletor.buscar_dados_trends prov termos geo timeframe retries initial_delay).
Proof. apply nao_toca_tentativas. Qed.

(** One round of the loop, by what the provider answers. *)
Lemma tentativas_dados prov termos geo timeframe retries initial_delay n attempt w df :
  prov (chamadas w) termos geo timeframe = Coletor.Dados df ->
  Coletor.tentativas (S n) attempt prov termos geo timeframe retries initial_delay w
  = (Retorna (if Pandas.empty df then None else Some (sem_isPartial df)),
     {| fs := fs w; saida := saida w; chamadas := S (chamadas w) |}).
Proof.
  intros H. cbn [Coletor.tentativas]. unfold bind, Coletor.consulta. rewrite H.
  unfold sem_isPartial. destruct (Pandas.empty df); [reflexivity|].
  destruct (Pandas.has_column _ df); reflexivity.
Qed.

Lemma tentativas_outro_erro prov termos geo timeframe retries initial_delay n attempt w e :
  prov (chamadas w) termos geo timeframe = Coletor.Excecao e ->
  Texto.contem "429" e = false ->
  Coletor.tentativas (S n) attempt prov termos geo timeframe retries initial_delay w
  = (Retorna None,
     {| fs := fs w; saida := saida w ++ [Print (ErroInesperado e)];
        chamadas := S (chamadas w) |}).
Proof.
  intros H He. cbn [Coletor.tentativas]. unfold bind, Coletor.consulta.
  rewrite H, He. reflexivity.
Qed.

Lemma tentativas_429_ultima prov termos geo timeframe retries initial_delay n attempt w e :
  prov (chamadas w) termos geo timeframe = Coletor.Excecao e ->
  Texto.contem "429" e = true ->
  retries - 1 <= attempt ->
  Coletor.tentativas (S n) attempt prov termos geo timeframe retries initial_delay w
  = (Retorna None,
     {| fs := fs w; saida := saida w ++ [Print (ErroBusca e)];
        chamadas := S (chamadas w) |}).
Proof.
  intros H He Ha. cbn [Coletor.tentativas]. unfold bind, Coletor.consulta.
  rewrite H, He. replace (attempt <? retries - 1) with false
    by (symmetry; apply Z.ltb_ge; lia). reflexivity.
Qed.

Lemma tentativas_429_espera prov termos geo timeframe retries initial_delay n attempt w e :
  prov (chamadas w) termos geo timeframe = Coletor.Excecao e ->
  Texto.contem "429" e = true ->
  attempt < retries - 1 ->
  0 <= initial_delay * 2 ^ attempt ->
  Coletor.tentativas (S n) attempt prov termos geo timeframe retries initial_delay w
  = Coletor.tentativas n (attempt + 1) prov termos geo timeframe retries initial_delay
      {| fs := fs w;
         saida := (saida w ++ [Print (Erro429 (initial_delay * 2 ^ attempt))])
                  ++ [Sleep (initial_delay * 2 ^ attempt)];
         chamadas := S (chamadas w) |}.
Proof.
  intros H He Ha Hd. cbn [Coletor.tentativas]. unfold bind at 1. unfold Coletor.consulta.
  rewrite H, He. replace (attempt <? retries - 1) with true
    by (symmetry; apply Z.ltb_lt; lia).
  unfold bind, print, sleep. cbn [fs saida chamadas].
  replace (initial_delay * 2 ^ attempt <? 0) with false
    by (symmetry; apply Z.ltb_ge; lia).
  reflexivity.
Qed.

Lemma sleeps_app a b : sleeps (a ++ b) = sleeps a ++ sleeps b.
Proof. unfold sleeps. apply omap_app. Qed.



End FetcherFacts.

(** ** Claims about the fetcher *)

Section FetcherClaims.
Import Mundo.






End FetcherClaims.

(** ** The collection run and the files it touches *)

Section ColetaFacts.
Import Mundo.

Lemma so_toca_salvar df cat geo db_file defeito :
  so_toca db_file (Coletor.salvar_dados_no_banco df cat geo db_file defeito).
Proof.
  intros w outro Hne. unfold Coletor.salvar_dados_no_banco, conectar.
  destruct (fs w !! db_file) as [[[t|]| |]|]; cbn [fs snd print com_fs];
    try reflexivity.
  - destruct (Coletor.executemany _ _ _ _); cbn [fs snd print com_fs]; [reflexivity|].
    destruct (decide _); cbn [fs snd print com_fs]; [reflexivity|].
    now rewrite lookup_insert_ne.
  - now rewrite lookup_insert_ne.
Qed.

Lemma so_toca_iniciar_banco db_file : so_toca db_file (Coletor.iniciar_banco db_file).
Proof.
  intros w outro Hne. unfold Coletor.iniciar_banco.
  destruct (fs w !! db_file) as [[[t|]| |]|]; cbn [fs snd print com_fs];
    try reflexivity; now rewrite lookup_insert_ne.
Qed.

Lemma so_toca_processa prov defeitos cats :
  so_toca Coletor.DB_FILE (Coletor.processa prov defeitos cats).
Proof.
  induction cats as [|[cat keywords] cats IH]; cbn [Coletor.processa].
  - apply nao_toca_so_toca, nao_toca_ret.
  - apply so_toca_bind; [apply nao_toca_so_toca, nao_toca_print|]. intros _.
    apply so_toca_bind; [apply nao_toca_so_toca, nao_toca_print|]. intros _.
    apply so_toca_bind; [apply nao_toca_so_toca, nao_toca_buscar_dados_trends|].
    intros [df|].
    + apply so_toca_bind.
      * destruct (negb (Pandas.empty df)).
        -- apply so_toca_bind; [apply nao_toca_so_toca, nao_toca_print|]. intros _.
           apply so_toca_salvar.
        -- apply nao_toca_so_toca, nao_toca_print.
      * intros _. apply so_toca_bind; [apply nao_toca_so_toca, nao_toca_print|].
        intros _. apply so_toca_bind; [apply nao_toca_so_toca, nao_toca_sleep|].
        intros _. exact IH.
    + apply so_toca_bind; [apply nao_toca_so_toca, nao_toca_print|]. intros _.
      apply so_toca_bind; [apply nao_toca_so_toca, nao_toca_print|].
      intros _. apply so_toca_bind; [apply nao_toca_so_toca, nao_toca_sleep|].
      intros _. exact IH.
Qed.

(** The collector writes to its own database file and to no other file. *)
Lemma so_toca_main prov defeitos :
  so_toca Coletor.DB_FILE (Coletor.main prov defeitos).
Proof.
  unfold Coletor.main.
  apply so_toca_bind; [apply nao_toca_so_toca, nao_toca_print|]. intros _.
  apply so_toca_bind; [apply nao_toca_so_toca, nao_toca_print|]. intros _.
  apply so_toca_bind; [apply so_toca_iniciar_banco|]. intros _.
  intros w outro Hne.
  pose proof (so_toca_bind Coletor.DB_FILE (Coletor.processa prov defeitos
                Coletor.CATEGORIAS_PRAGAS) (fun _ => print Concluido)
                (so_toca_processa _ _ _)
                (fun _ => nao_toca_so_toca _ _ (nao_toca_print _)) w outro Hne) as H.
  destruct (bind _ _ w) as [[u|e] w']; cbn [snd] in *; exact H.
Qed.

(** C1 fails on the code.  Whatever the provider answers, a collection run
    leaves the file read by the batch chart generator
    ([tendencias_pragas.db]) as it was: the collector writes to
    [tendencias_pragas_v4.db].  After a run in an empty directory in which
    all six categories are stored, the collector's file lists the six
    categories, while the generator's file lists none and the generator
    writes no chart. *)
Theorem C1_gerador_nao_le_o_arquivo_da_coleta :
  (forall prov defeitos w,
      fs (executa (Coletor.main prov defeitos) w) !! Visualizador.DB_FILE
      = fs w !! Visualizador.DB_FILE)
  /\ valor (Visualizador.listar_categorias Coletor.DB_FILE)
           (executa (Coletor.main provedor_exemplo (fun _ => None)) mundo_vazio)
     = Retorna ["Aranhas"; "Baratas"; "Escorpiões"; "Formigas"; "Lesmas"; "Ratos"]%string
  /\ valor (Visualizador.listar_categorias Visualizador.DB_FILE)
           (executa (Coletor.main provedor_exemplo (fun _ => None)) mundo_vazio)
     = Retorna []
  /\ Gerador.graficos_em
       (fs (executa Gerador.main
              (executa (Coletor.main provedor_exemplo (fun _ => None)) mundo_vazio)))
     = [].
Proof.
  split; [|split; [|split]].
  - intros prov defeitos w. apply so_toca_main. discriminate.
  - vm_compute. reflexivity.
  - vm_compute. reflexivity.
  - vm_compute. reflexivity.
Qed.

End ColetaFacts.

(** ** The dashboard's aggregation *)

Section DashboardFacts.
Import Dashboard.

Lemma minimo_spec x l : minimo x l <= x /\ Forall (fun y => minimo x l <= y) l.
Proof.
  unfold minimo. induction l as [|y l [IH1 IH2]]; cbn [foldr];
    [split; [lia|constructor]|].
  split; [lia|]. constructor; [lia|].
  eapply Forall_impl; [exact IH2|]. cbn beta. intros; lia.
Qed.

Lemma maximo_spec x l : x <= maximo x l /\ Forall (fun y => y <= maximo x l) l.
Proof.
  unfold maximo. induction l as [|y l [IH1 IH2]]; cbn [foldr];
    [split; [lia|constructor]|].
  split; [lia|]. constructor; [lia|].
  eapply Forall_impl; [exact IH2|]. cbn beta. intros; lia.
Qed.

Lemma minimo_maximo_cons (p : Z * Z) (s : list (Z * Z)) :
  Forall (fun q => minimo (fst p) (fst <$> s) <= fst q
                   /\ fst q <= maximo (fst p) (fst <$> s)) (p :: s).
Proof.
  destruct (minimo_spec (fst p) (fst <$> s)) as [H1 H2].
  destruct (maximo_spec (fst p) (fst <$> s)) as [H3 H4].
  constructor; [lia|]. rewrite Forall_fmap in H2, H4.
  apply Forall_forall. intros q Hq. rewrite Forall_forall in H2, H4.
  specialize (H2 q Hq). specialize (H4 q Hq). cbn in *. lia.
Qed.

Lemma maximo_elem x l : maximo x l ∈ x :: l.
Proof.
  unfold maximo. induction l as [|y l IH]; cbn [foldr]; [left|].
  destruct (Z.max_spec y (foldr Z.max x l)) as [[_ ->]|[_ ->]].
  - apply elem_of_cons in IH as [E|IH]; [rewrite E; left|right; now right].
  - right. left.
Qed.

Lemma StronglySorted_lt_seqZ m n : StronglySorted Z.lt (seqZ m n).
Proof.
  remember (Z.to_nat n) as k eqn:Hk. revert m n Hk.
  induction k as [|k IH]; intros m n Hk.
  - rewrite seqZ_nil by lia. constructor.
  - rewrite seqZ_cons by lia. constructor; [apply IH; lia|].
    apply Forall_forall. intros x Hx. apply elem_of_seqZ in Hx. lia.
Qed.

Lemma StronglySorted_filter {A} (R : relation A) (P : A -> Prop)
    `{!forall x, Decision (P x)} l :
  StronglySorted R l -> StronglySorted R (filter P l).
Proof.
  induction 1 as [|x l Hs IH Hx]; [constructor|].
  destruct (decide (P x)).
  - rewrite filter_cons_True by assumption. constructor; [exact IH|].
    apply Forall_forall. intros y Hy. apply list_elem_of_filter in Hy as [_ Hy].
    rewrite Forall_forall in Hx. now apply Hx.
  - rewrite filter_cons_False by assumption. exact IH.
Qed.

Lemma StronglySorted_lt_NoDup (l : list Z) : StronglySorted Z.lt l -> NoDup l.
Proof.
  induction 1 as [|x l Hs IH Hx]; [constructor|].
  apply NoDup_cons. split; [|exact IH]. intros Hin.
  rewrite Forall_forall in Hx. specialize (Hx x Hin). lia.
Qed.

Lemma StronglySorted_le_NoDup_lt (l : list Z) :
  StronglySorted Z.le l -> NoDup l -> StronglySorted Z.lt l.
Proof.
  induction 1 as [|x l Hs IH Hx]; intros Hnd; [constructor|].
  apply NoDup_cons in Hnd as [Hx' Hnd]. constructor; [now apply IH|].
  apply Forall_forall. intros y Hy. rewrite Forall_forall in Hx.
  specialize (Hx y Hy). assert (x <> y) by (intros ->; contradiction). lia.
Qed.

Lemma sorted_lt_unique (l1 l2 : list Z) :
  StronglySorted Z.lt l1 -> StronglySorted Z.lt l2 ->
  (forall x, x ∈ l1 <-> x ∈ l2) -> l1 = l2.
Proof.
  intros H1 H2 Hm. apply (StronglySorted_unique_strong Z.lt); try assumption.
  - intros; lia.
  - apply NoDup_Permutation; auto using StronglySorted_lt_NoDup.
Qed.

Lemma ordenados_sem_repeticao (l : list Z) :
  StronglySorted Z.lt (merge_sort Z.le (remove_dups l))
  /\ forall x, x ∈ merge_sort Z.le (remove_dups l) <-> x ∈ l.
Proof.
  split.
  - apply StronglySorted_le_NoDup_lt.
    + apply StronglySorted_merge_sort; apply _.
    + rewrite merge_sort_Permutation. apply NoDup_remove_dups.
  - intros x. rewrite merge_sort_Permutation. apply elem_of_remove_dups.
Qed.

Lemma dropna_bins (lab : Z -> Z) (sel : Z -> list Z) (ks : list Z) :
  dropna ((fun k => (lab k, mean (sel k))) <$> ks)
  = (fun k => (lab k, media (sel k))) <$> filter (fun k => sel k <> []) ks.
Proof.
  induction ks as [|k ks IH]; [reflexivity|].
  rewrite fmap_cons. unfold dropna in *. cbn [omap list_omap]. cbn [snd fst].
  destruct (sel k) as [|v vs] eqn:E.
  - cbn [mean]. rewrite filter_cons_False by (rewrite E; tauto). exact IH.
  - cbn [mean]. rewrite filter_cons_True by (rewrite E; discriminate).
    rewrite fmap_cons, E. unfold media at 2. now rewrite IH.
Qed.

(** Bins that partition the dates by a key: after [dropna] there is one
    point per key that occurs, keys ascending. *)
Lemma bins_por_chave (s : list (Z * Z)) (key lab : Z -> Z) (inbin : Z -> Z -> Prop)
    {Hdec : forall k d, Decision (inbin k d)} (ks : list Z) :
  StronglySorted Z.lt ks ->
  (forall k d, k ∈ ks -> (inbin k d <-> key d = k)) ->
  Forall (fun q => key (fst q) ∈ ks) s ->
  dropna ((fun k => (lab k, mean (snd <$> filter (fun q => inbin k (fst q)) s))) <$> ks)
  = (fun k => (lab k, media (snd <$> filter (fun q => key (fst q) = k) s)))
    <$> merge_sort Z.le (remove_dups ((fun q => key (fst q)) <$> s)).
Proof.
  intros Hks Hbin Hin. rewrite dropna_bins.
  destruct (ordenados_sem_repeticao ((fun q => key (fst q)) <$> s)) as [Hs Hm].
  assert (Hsel : forall k, k ∈ ks ->
            filter (fun q => inbin k (fst q)) s = filter (fun q => key (fst q) = k) s).
  { intros k Hk. apply list_filter_iff. intros q. now apply Hbin. }
  assert (E : filter (fun k => snd <$> filter (fun q => inbin k (fst q)) s <> []) ks
              = merge_sort Z.le (remove_dups ((fun q => key (fst q)) <$> s))).
  { apply sorted_lt_unique; [now apply StronglySorted_filter|exact Hs|].
    intros k. rewrite Hm, list_elem_of_filter, list_elem_of_fmap. split.
    - intros [Hne Hk]. rewrite (Hsel k Hk) in Hne.
      destruct (filter (fun q => key (fst q) = k) s) as [|q l] eqn:Ef; [now cbn in Hne|].
      assert (Hq : q ∈ filter (fun q => key (fst q) = k) s) by (rewrite Ef; left).
      apply list_elem_of_filter in Hq as [Hq1 Hq2]. now exists q.
    - intros (q & -> & Hq). rewrite Forall_forall in Hin. split; [|now apply Hin].
      rewrite (Hsel _ (Hin q Hq)). intros Hnil. apply fmap_nil_inv in Hnil.
      eapply (filter_nil_not_elem_of _ _ q Hnil); [reflexivity|exact Hq]. }
  rewrite E. apply Forall_fmap_ext, Forall_forall. intros k Hk.
  apply Hm, list_elem_of_fmap in Hk as (q & -> & Hq).
  rewrite Forall_forall in Hin. now rewrite (Hsel _ (Hin q Hq)).
Qed.

End DashboardFacts.

Section DashboardClaims.
Import Dashboard.

(** Monthly bins, NaN rows dropped: one point per month that has data. *)
Lemma dropna_resample_MS s : dropna (resample_MS s) = pontos_mensais s.
Proof.
  destruct s as [|p s]; [reflexivity|].
  unfold resample_MS, pontos_mensais, meses_com_dados.
  pose proof (bins_por_chave (p :: s) Calendar.to_period_M Calendar.to_timestamp
           (fun k d => Calendar.to_timestamp k <= d /\ d < Calendar.to_timestamp (k + 1)))
    as Hbins.
  apply Hbins; clear Hbins.
  - apply StronglySorted_lt_seqZ.
  - intros k d _. split.
    + apply to_period_M_unique.
    + intros <-. apply to_period_M_spec.
  - eapply Forall_impl; [apply minimo_maximo_cons|]. cbn beta. intros q [H1 H2].
    apply elem_of_seqZ.
    pose proof (to_period_M_mono _ _ H1). pose proof (to_period_M_mono _ _ H2). lia.
Qed.

Lemma weekday_shift d i : Calendar.weekday (d + 7 * i) = Calendar.weekday d.
Proof. unfold Calendar.weekday. Z.div_mod_to_equations. lia. Qed.

(** Weekly bins, NaN rows dropped: one point per week that has data. *)
Lemma dropna_resample_W s : dropna (resample_W s) = pontos_semanais s.
Proof.
  destruct s as [|p s]; [reflexivity|].
  unfold resample_W, pontos_semanais, semanas_com_dados.
  set (lo := Calendar.week_end (minimo (fst p) (fst <$> s))).
  set (hi := Calendar.week_end (maximo (fst p) (fst <$> s))).
  cbn zeta.
  change ((fun i => (lo + 7 * i,
             mean (snd <$> filter (fun q => lo + 7 * i - 7 < fst q /\ fst q <= lo + 7 * i)
                                  (p :: s)))) <$> seqZ 0 ((hi - lo) / 7 + 1))
    with (((fun k => (k, mean (snd <$> filter (fun q => k - 7 < fst q /\ fst q <= k)
                                              (p :: s))))
           ∘ (fun i => lo + 7 * i)) <$> seqZ 0 ((hi - lo) / 7 + 1)).
  rewrite list_fmap_compose.
  pose proof (bins_por_chave (p :: s) Calendar.week_end (fun k => k)
           (fun k d => k - 7 < d /\ d <= k)) as Hbins.
  apply Hbins; clear Hbins.
  - apply (StronglySorted_fmap _ Z.lt Z.lt); [intros; lia|apply StronglySorted_lt_seqZ].
  - intros k d Hk. apply list_elem_of_fmap in Hk as (i & -> & _).
    apply week_end_bin. rewrite weekday_shift. apply week_end_spec.
  - eapply Forall_impl; [apply minimo_maximo_cons|]. cbn beta. intros q [H1 H2].
    apply list_elem_of_fmap.
    pose proof (week_end_mono _ _ H1) as M1. pose proof (week_end_mono _ _ H2) as M2.
    fold lo in M1. fold hi in M2.
    destruct (week_end_step (minimo (fst p) (fst <$> s)) (fst q)) as [i Hi].
    fold lo in Hi. exists i. split; [exact Hi|].
    apply elem_of_seqZ. Z.div_mod_to_equations. lia.
Qed.

Lemma fst_lt_inj (l : list (Z * Q)) x y :
  StronglySorted (fun a b => fst a < fst b) l ->
  x ∈ l -> y ∈ l -> fst x = fst y -> x = y.
Proof.
  induction 1 as [|z l Hs IH Hz]; intros Hx Hy E; [inversion Hx|].
  rewrite Forall_forall in Hz.
  apply elem_of_cons in Hx as [->|Hx]; apply elem_of_cons in Hy as [->|Hy].
  - reflexivity.
  - specialize (Hz y Hy). lia.
  - specialize (Hz x Hx). lia.
  - now apply IH.
Qed.

#[local] Instance dash_por_data_trans : Transitive por_data.
Proof. intros a b c. unfold por_data. lia. Qed.

#[local] Instance dash_por_data_total : Total por_data.
Proof. intros a b. unfold por_data. lia. Qed.

(** Sorting by date leaves a series with strictly ascending dates as it is. *)
Lemma merge_sort_ordenada (l : list (Z * Q)) :
  StronglySorted (fun a b => fst a < fst b) l -> merge_sort por_data l = l.
Proof.
  intros Hl. apply (StronglySorted_unique_strong por_data).
  - intros x1 x2 H1 H2 R1 R2. rewrite merge_sort_Permutation in H1.
    apply (fst_lt_inj l); try assumption. unfold por_data in *. lia.
  - apply StronglySorted_merge_sort; apply _.
  - clear -Hl. induction Hl as [|x l Hs IH Hx]; constructor; [exact IH|].
    eapply Forall_impl; [exact Hx|]. unfold por_data. cbn beta. intros; lia.
  - apply merge_sort_Permutation.
Qed.

Lemma start_of_last_month_split p resto d :
  (d < start_of_last_month (p :: resto)
   <-> Calendar.to_period_M d
       < Calendar.to_period_M (maximo (fst p) (fst <$> resto))).
Proof. unfold start_of_last_month. apply lt_to_timestamp_iff. Qed.

Lemma pontos_mensais_ordenados s :
  StronglySorted (fun a b : Z * Q => fst a < fst b) (pontos_mensais s).
Proof.
  unfold pontos_mensais, meses_com_dados.
  eapply (StronglySorted_fmap _ Z.lt).
  - intros k1 k2 H. cbn [fst]. now apply to_timestamp_lt.
  - apply ordenados_sem_repeticao.
Qed.

Lemma pontos_semanais_ordenados s :
  StronglySorted (fun a b : Z * Q => fst a < fst b) (pontos_semanais s).
Proof.
  unfold pontos_semanais, semanas_com_dados.
  eapply (StronglySorted_fmap _ Z.lt).
  - intros k1 k2 H. exact H.
  - apply ordenados_sem_repeticao.
Qed.

Lemma pontos_mensais_antes s b :
  Forall (fun q => fst q < Calendar.to_timestamp b) s ->
  Forall (fun pt : Z * Q => fst pt < Calendar.to_timestamp b) (pontos_mensais s).
Proof.
  intros Hs. unfold pontos_mensais, meses_com_dados. apply Forall_fmap, Forall_forall.
  intros k Hk. unfold compose. cbn [fst]. apply (proj1 (proj2 (ordenados_sem_repeticao _) _)) in Hk.
  apply list_elem_of_fmap in Hk as (q & -> & Hq).
  rewrite Forall_forall in Hs. specialize (Hs q Hq).
  apply lt_to_timestamp_iff in Hs. now apply to_timestamp_lt.
Qed.

Lemma pontos_semanais_depois s b :
  Forall (fun q => b <= fst q) s ->
  Forall (fun pt : Z * Q => b <= fst pt) (pontos_semanais s).
Proof.
  intros Hs. unfold pontos_semanais, semanas_com_dados. apply Forall_fmap, Forall_forall.
  intros k Hk. unfold compose. cbn [fst]. apply (proj1 (proj2 (ordenados_sem_repeticao _) _)) in Hk.
  apply list_elem_of_fmap in Hk as (q & -> & Hq).
  rewrite Forall_forall in Hs. specialize (Hs q Hq). cbn beta in Hs.
  pose proof (week_end_spec (fst q)). lia.
Qed.

(** The mixed series, said directly. *)
Lemma granularidade_mista_pontos agg :
  granularidade_mista agg
  = pontos_mensais (df_historico agg) ++ pontos_semanais (df_recente agg)
  /\ StronglySorted (fun a b => fst a < fst b) (granularidade_mista agg).
Proof.
  assert (Hs : StronglySorted (fun a b : Z * Q => fst a < fst b)
                 (pontos_mensais (df_historico agg) ++ pontos_semanais (df_recente agg))).
  { destruct agg as [|p resto].
    - cbn. constructor.
    - apply StronglySorted_app_2.
      + intros x1 x2 H1 H2.
        assert (Ha : Forall (fun q => fst q < Calendar.to_timestamp
                         (Calendar.to_period_M (maximo (fst p) (fst <$> resto))))
                       (df_historico (p :: resto))).
        { apply Forall_forall. intros q Hq.
          apply list_elem_of_filter in Hq as [Hq _]. exact Hq. }
        assert (Hd : Forall (fun q => start_of_last_month (p :: resto) <= fst q)
                       (df_recente (p :: resto))).
        { apply Forall_forall. intros q Hq.
          apply list_elem_of_filter in Hq as [Hq _]. exact Hq. }
        apply pontos_mensais_antes in Ha. apply pontos_semanais_depois in Hd.
        rewrite Forall_forall in Ha, Hd.
        specialize (Ha x1 H1). specialize (Hd x2 H2). cbn beta in Ha, Hd.
        unfold start_of_last_month in Hd. lia.
      + apply pontos_mensais_ordenados.
      + apply pontos_semanais_ordenados. }
  assert (E : granularidade_mista agg
              = pontos_mensais (df_historico agg) ++ pontos_semanais (df_recente agg)).
  { unfold granularidade_mista.
    replace (dropna (resample_MS (df_historico agg) ++ resample_W (df_recente agg)))
      with (dropna (resample_MS (df_historico agg))
            ++ dropna (resample_W (df_recente agg)))
      by (unfold dropna; now rewrite omap_app).
    rewrite dropna_resample_MS, dropna_resample_W.
    apply (merge_sort_ordenada _ Hs). }
  rewrite E. split; [reflexivity|exact Hs].
Qed.

End DashboardClaims.

Section DashboardTheorems.
Import Dashboard.

Lemma filter_ext_in {A} (P Q : A -> Prop) `{!forall x, Decision (P x)}
    `{!forall x, Decision (Q x)} (l : list A) :
  Forall (fun x => P x <-> Q x) l -> filter P l = filter Q l.
Proof.
  induction 1 as [|x l Hx _ IH]; [reflexivity|].
  destruct (decide (P x)) as [HP|HP].
  - rewrite !filter_cons_True by tauto. now f_equal.
  - rewrite !filter_cons_False by tauto. exact IH.
Qed.

Lemma filter_todos {A} (P : A -> Prop) `{!forall x, Decision (P x)} (l : list A) :
  Forall P l -> filter P l = l.
Proof.
  induction 1 as [|x l Hx _ IH]; [reflexivity|].
  rewrite filter_cons_True by assumption. now f_equal.
Qed.

Lemma filter_nenhum {A} (P : A -> Prop) `{!forall x, Decision (P x)} (l : list A) :
  Forall (fun x => ~ P x) l -> filter P l = [].
Proof.
  induction 1 as [|x l Hx _ IH]; [reflexivity|].
  rewrite filter_cons_False by assumption. exact IH.
Qed.

(** C3. A non-empty aggregated series is split at the first day of the
    month of its last date: the points of earlier months go to monthly
    means, the points of that month to weekly means.  The result is the
    monthly points followed by the weekly points, with strictly ascending
    dates; it has one monthly point for each earlier month that has data,
    each dated before the split, and the weekly points, each dated on or
    after the split, are means of points of the last month only. *)
Theorem C3_granularidade_mista p resto :
  start_of_last_month (p :: resto)
  = Calendar.to_timestamp (Calendar.to_period_M (maximo (fst p) (fst <$> resto)))
  /\ df_historico (p :: resto)
     = filter (fun q => Calendar.to_period_M (fst q)
                        < Calendar.to_period_M (maximo (fst p) (fst <$> resto)))
              (p :: resto)
  /\ df_recente (p :: resto)
     = filter (fun q => Calendar.to_period_M (fst q)
                        = Calendar.to_period_M (maximo (fst p) (fst <$> resto)))
              (p :: resto)
  /\ granularidade_mista (p :: resto)
     = pontos_mensais (df_historico (p :: resto))
       ++ pontos_semanais (df_recente (p :: resto))
  /\ StronglySorted (fun a b => fst a < fst b) (granularidade_mista (p :: resto))
  /\ filter (fun pt => fst pt < start_of_last_month (p :: resto))
            (granularidade_mista (p :: resto))
     = pontos_mensais (df_historico (p :: resto))
  /\ filter (fun pt => start_of_last_month (p :: resto) <= fst pt)
            (granularidade_mista (p :: resto))
     = pontos_semanais (df_recente (p :: resto))
  /\ length (pontos_mensais (df_historico (p :: resto)))
     = length (remove_dups
                 ((fun q => Calendar.to_period_M (fst q))
                    <$> filter (fun q => Calendar.to_period_M (fst q)
                                  < Calendar.to_period_M (maximo (fst p) (fst <$> resto)))
                               (p :: resto)))
  /\ pontos_semanais (df_recente (p :: resto)) <> [].
Proof.
  set (agg := p :: resto).
  set (mes := Calendar.to_period_M (maximo (fst p) (fst <$> resto))).
  assert (Hh : df_historico agg
               = filter (fun q => Calendar.to_period_M (fst q) < mes) agg).
  { unfold df_historico. apply list_filter_iff. intros q.
    apply start_of_last_month_split. }
  assert (Hr : df_recente agg
               = filter (fun q => Calendar.to_period_M (fst q) = mes) agg).
  { unfold df_recente. apply filter_ext_in.
    eapply Forall_impl; [apply minimo_maximo_cons|]. cbn beta. intros q [_ Hq].
    pose proof (start_of_last_month_split p resto (fst q)) as Hs.
    pose proof (to_period_M_mono _ _ Hq). fold agg mes in Hs |- *. lia. }
  destruct (granularidade_mista_pontos agg) as [E Hs].
  assert (Ha : Forall (fun pt : Z * Q => fst pt < start_of_last_month agg)
                 (pontos_mensais (df_historico agg))).
  { apply pontos_mensais_antes. apply Forall_forall. intros q Hq.
    apply list_elem_of_filter in Hq as [Hq _]. exact Hq. }
  assert (Hd : Forall (fun pt : Z * Q => start_of_last_month agg <= fst pt)
                 (pontos_semanais (df_recente agg))).
  { apply pontos_semanais_depois. apply Forall_forall. intros q Hq.
    apply list_elem_of_filter in Hq as [Hq _]. exact Hq. }
  split; [reflexivity|]. split; [exact Hh|]. split; [exact Hr|].
  split; [exact E|]. split; [exact Hs|]. split; [|split; [|split]].
  - rewrite E, filter_app, (filter_todos _ _ Ha), filter_nenhum, app_nil_r;
      [reflexivity|].
    eapply Forall_impl; [exact Hd|]. cbn beta. intros; lia.
  - rewrite E, filter_app, (filter_todos _ _ Hd), filter_nenhum; [reflexivity|].
    eapply Forall_impl; [exact Ha|]. cbn beta. intros; lia.
  - unfold pontos_mensais, meses_com_dados. rewrite length_fmap, Hh.
    apply Permutation_length, merge_sort_Permutation.
  - unfold pontos_semanais, semanas_com_dados. intros Hnil.
    apply fmap_nil_inv in Hnil.
    assert (Hin : (maximo (fst p) (fst <$> resto)) ∈ fst <$> agg)
      by apply maximo_elem.
    apply list_elem_of_fmap in Hin as (q & Eq & Hq).
    assert (Hq' : q ∈ df_recente agg).
    { rewrite Hr. apply list_elem_of_filter. split; [|exact Hq].
      unfold mes. now rewrite Eq. }
    assert (Hw : Calendar.week_end (fst q)
                 ∈ merge_sort Z.le (remove_dups
                     ((fun q => Calendar.week_end (fst q)) <$> df_recente agg))).
    { apply ordenados_sem_repeticao. apply list_elem_of_fmap. now exists q. }
    rewrite Hnil in Hw. inversion Hw.
Qed.


Lemma max_interesse_le x l b :
  (x <= b)%Q -> Forall (fun y => (y <= b)%Q) l -> (max_interesse x l <= b)%Q.
Proof.
  unfold max_interesse. intros Hx Hl. induction Hl as [|y l Hy _ IH]; cbn [foldr].
  - exact Hx.
  - apply Q.max_lub; assumption.
Qed.




Lemma renormaliza_positivo p resto :
  (0 < max_interesse (snd p) (snd <$> resto))%Q ->
  renormaliza (p :: resto)
  = (fun q => (fst q, (snd q / max_interesse (snd p) (snd <$> resto) * 100)%Q))
      <$> (p :: resto).
Proof.
  intros H. unfold renormaliza.
  destruct (Qlt_le_dec 0 (max_interesse (snd p) (snd <$> resto))) as [_|Hle];
    [reflexivity|].
  exfalso. exact (Qlt_not_le _ _ H Hle).
Qed.

Lemma renormaliza_nao_positivo p resto :
  (max_interesse (snd p) (snd <$> resto) <= 0)%Q ->
  renormaliza (p :: resto) = p :: resto.
Proof.
  intros H. unfold renormaliza.
  destruct (Qlt_le_dec 0 (max_interesse (snd p) (snd <$> resto))) as [Hlt|_];
    [|reflexivity].
  exfalso. exact (Qlt_not_le _ _ Hlt H).
Qed.


(** C4. The re-normalisation divides every value of the combined series
    by the maximum of the series and multiplies it by 100: the values
    10, 20, 40 become 25, 50, 100.  When the maximum is not positive, in
    particular for an all-zero series, the series is left as it is. *)
Theorem C4_renormaliza :
  (forall p resto,
      (0 < max_interesse (snd p) (snd <$> resto))%Q ->
      renormaliza (p :: resto)
      = (fun q => (fst q, (snd q / max_interesse (snd p) (snd <$> resto) * 100)%Q))
          <$> (p :: resto))
  /\ (forall d1 d2 d3,
         fst <$> renormaliza [(d1, 10%Q); (d2, 20%Q); (d3, 40%Q)] = [d1; d2; d3]
         /\ Forall2 Qeq (snd <$> renormaliza [(d1, 10%Q); (d2, 20%Q); (d3, 40%Q)])
                    [25%Q; 50%Q; 100%Q])
  /\ (forall p resto,
         (max_interesse (snd p) (snd <$> resto) == 0)%Q ->
         renormaliza (p :: resto) = p :: resto)
  /\ (forall s, Forall (fun q => (snd q == 0)%Q) s -> renormaliza s = s).
Proof.
  split; [exact renormaliza_positivo|]. split; [|split].
  - intros d1 d2 d3. split; [reflexivity|].
    repeat constructor; vm_compute; reflexivity.
  - intros p resto E. apply renormaliza_nao_positivo. rewrite E. apply Qle_refl.
  - intros [|p resto] Hs; [reflexivity|]. apply renormaliza_nao_positivo.
    apply Forall_cons in Hs as [Hp Hr]. cbn beta in Hp.
    apply max_interesse_le; [rewrite Hp; apply Qle_refl|].
    apply Forall_fmap. eapply Forall_impl; [exact Hr|]. cbn beta. intros q Hq.
    unfold compose. rewrite Hq. apply Qle_refl.
Qed.





End DashboardTheorems.

(* ===================================================================== *)
(** * Further properties of the code                                      *)
(* ===================================================================== *)

(** ** The collector *)

Section ColetorExtras.
Import Mundo.

(** [iniciar_banco] never raises and touches no other file.  On a missing
    file or a database it leaves a database with the table [trends],
    holding the rows it held before (none if the table was missing); on a
    directory or a file that is no database it changes nothing and prints
    the error.  Running it a second time changes no file. *)
Theorem iniciar_banco_cria_ou_conserva db_file w :
  valor (Coletor.iniciar_banco db_file) w = Retorna tt
  /\ (forall outro, outro <> db_file ->
        fs (executa (Coletor.iniciar_banco db_file) w) !! outro = fs w !! outro)
  /\ match fs w !! db_file with
     | None | Some (Banco _) =>
         tabela_de (fs (executa (Coletor.iniciar_banco db_file) w)) db_file
         = Some (default [] (tabela_de (fs w) db_file))
     | Some _ =>
         fs (executa (Coletor.iniciar_banco db_file) w) = fs w
         /\ exists e, saida (executa (Coletor.iniciar_banco db_file) w)
                      = saida w ++ [Print (ErroIniciarBanco e)]
     end
  /\ fs (executa (Coletor.iniciar_banco db_file)
           (executa (Coletor.iniciar_banco db_file) w))
     = fs (executa (Coletor.iniciar_banco db_file) w).
Proof.
  unfold valor, executa, Coletor.iniciar_banco, tabela_de.
  destruct (fs w !! db_file) as [[[t|]| |]|] eqn:E; cbn [fs snd fst print com_fs];
    rewrite ?E, ?lookup_insert_eq; cbn [fs snd fst print com_fs];
    repeat split; try reflexivity;
    try (intros outro Hne; now rewrite lookup_insert_ne);
    try (now eexists).
Qed.

(** The schedule of a fetch: with a non-negative initial delay and a
    positive number of attempts, a fetch that makes [m + 1] requests has
    slept exactly [m] times, [initial_delay * 2^j] seconds before request
    [j + 1], and made no more requests than [retries]. *)
Lemma tentativas_agenda prov termos geo timeframe retries initial_delay n :
  0 <= initial_delay ->
  forall attempt w, 0 <= attempt -> retries = attempt + Z.of_nat (S n) ->
    exists r out m,
      Coletor.tentativas (S n) attempt prov termos geo timeframe retries initial_delay w
      = (Retorna r, {| fs := fs w; saida := saida w ++ out;
                       chamadas := (chamadas w + S m)%nat |})
      /\ (m <= n)%nat
      /\ sleeps out = (fun j => initial_delay * 2 ^ j) <$> seqZ attempt (Z.of_nat m).
Proof.
  intros Hd. induction n as [|n IH]; intros attempt w Ha Hr.
  - destruct (prov (chamadas w) termos geo timeframe) as [df|e] eqn:E.
    + rewrite (tentativas_dados _ _ _ _ _ _ _ _ _ _ E).
      eexists _, [], 0%nat. rewrite app_nil_r, Nat.add_1_r. repeat split; lia.
    + destruct (Texto.contem "429" e) eqn:He.
      * rewrite (tentativas_429_ultima _ _ _ _ _ _ _ _ _ _ E He) by lia.
        eexists _, [_], 0%nat. rewrite Nat.add_1_r. repeat split; lia.
      * rewrite (tentativas_outro_erro _ _ _ _ _ _ _ _ _ _ E He).
        eexists _, [_], 0%nat. rewrite Nat.add_1_r. repeat split; lia.
  - destruct (prov (chamadas w) termos geo timeframe) as [df|e] eqn:E.
    + rewrite (tentativas_dados _ _ _ _ _ _ _ _ _ _ E).
      eexists _, [], 0%nat. rewrite app_nil_r, Nat.add_1_r. repeat split; lia.
    + destruct (Texto.contem "429" e) eqn:He.
      * rewrite (tentativas_429_espera _ _ _ _ _ _ _ _ _ _ E He)
          by (first [lia | apply Z.mul_nonneg_nonneg; [lia|apply Z.pow_nonneg; lia]]).
        edestruct (IH (attempt + 1)) as (r & out & m & -> & Hm & Hs); [lia|lia|].
        cbn [fs saida chamadas].
        eexists r, ([Print (Erro429 (initial_delay * 2 ^ attempt));
                     Sleep (initial_delay * 2 ^ attempt)] ++ out), (S m).
        split; [|split; [lia|]].
        -- do 2 f_equal; [|lia]. rewrite <- !app_assoc. reflexivity.
        -- rewrite sleeps_app, Hs. rewrite (seqZ_cons attempt) by lia.
           rewrite fmap_cons.
           replace (Z.pred (Z.of_nat (S m))) with (Z.of_nat m) by lia.
           replace (Z.succ attempt) with (attempt + 1) by lia. reflexivity.
      * rewrite (tentativas_outro_erro _ _ _ _ _ _ _ _ _ _ E He).
        eexists _, [_], 0%nat. rewrite Nat.add_1_r. repeat split; lia.
Qed.

Theorem buscar_dados_trends_agenda prov termos geo timeframe retries initial_delay w :
  0 <= initial_delay -> 0 < retries ->
  exists r out m,
    Coletor.buscar_dados_trends prov termos geo timeframe retries initial_delay w
    = (Retorna r, {| fs := fs w; saida := saida w ++ out;
                     chamadas := (chamadas w + S m)%nat |})
    /\ Z.of_nat m < retries
    /\ sleeps out = (fun j => initial_delay * 2 ^ j) <$> seqZ 0 (Z.of_nat m).
Proof.
  intros Hd Hr. unfold Coletor.buscar_dados_trends.
  destruct (Z.to_nat retries) as [|n] eqn:En; [lia|].
  destruct (tentativas_agenda prov termos geo timeframe retries initial_delay n Hd
              0 w ltac:(lia) ltac:(lia)) as (r & out & m & E & Hm & Hs).
  exists r, out, m. split; [exact E|]. split; [lia|exact Hs].
Qed.

Lemma buscar_dados_trends_agenda_witness :
  exists r out m,
    Coletor.buscar_dados_trends provedor_429 ["rato"]%string "BR"
      "2020-01-01 2025-06-27" 3 10 mundo_vazio
    = (Retorna r, {| fs := fs mundo_vazio; saida := saida mundo_vazio ++ out;
                     chamadas := (chamadas mundo_vazio + S m)%nat |})
    /\ Z.of_nat m < 3
    /\ sleeps out = (fun j => 10 * 2 ^ j) <$> seqZ 0 (Z.of_nat m).
Proof.
  apply (buscar_dados_trends_agenda provedor_429); lia.
Defined.

(** With a negative initial delay and at least two attempts allowed, a
    first answer "too many requests" makes the fetch raise [ValueError]
    after one request, before any sleep or second request. *)
Theorem buscar_dados_trends_atraso_negativo prov termos geo timeframe retries
    initial_delay w e :
  initial_delay < 0 -> 2 <= retries ->
  prov (chamadas w) termos geo timeframe = Coletor.Excecao e ->
  Texto.contem "429" e = true ->
  Coletor.buscar_dados_trends prov termos geo timeframe retries initial_delay w
  = (Levanta (ValueError "sleep length must be non-negative"),
     {| fs := fs w; saida := saida w ++ [Print (Erro429 initial_delay)];
        chamadas := S (chamadas w) |}).
Proof.
  intros Hd Hr E He. unfold Coletor.buscar_dados_trends.
  destruct (Z.to_nat retries) as [|n] eqn:En; [lia|].
  cbn [Coletor.tentativas]. unfold bind at 1. unfold Coletor.consulta.
  rewrite E, He. replace (0 <? retries - 1) with true by (symmetry; apply Z.ltb_lt; lia).
  change (2 ^ 0) with 1. rewrite Z.mul_1_r.
  unfold bind, print, sleep. cbn [fs saida chamadas].
  replace (initial_delay <? 0) with true by (symmetry; apply Z.ltb_lt; lia).
  reflexivity.
Qed.

Lemma buscar_dados_trends_atraso_negativo_witness :
  Coletor.buscar_dados_trends provedor_429 ["rato"]%string "BR"
    "2020-01-01 2025-06-27" 3 (-10) mundo_vazio
  = (Levanta (ValueError "sleep length must be non-negative"),
     {| fs := fs mundo_vazio; saida := saida mundo_vazio ++ [Print (Erro429 (-10))];
        chamadas := S (chamadas mundo_vazio) |}).
Proof.
  apply (buscar_dados_trends_atraso_negativo provedor_429 _ _ _ 3 (-10) mundo_vazio
           "The request failed: Google returned a response with code 429");
    first [lia | reflexivity].
Defined.

End ColetorExtras.
